(** * Receipt-flow analytics: the in-memory query engine

    A shallow embedding of [backend/algorithms.py] (search, sort and
    aggregation over a list of receipt dictionaries) and of the two
    endpoints of [backend/main.py] that call it, from the rows read of
    the table of [backend/database.py] to the value returned, together
    with the properties its specification states.

    Conventions of the embedding.
    - A receipt is a Python [dict]: a finite map from field names to
      dynamically typed values ([gmap string value]).  A key bound to
      [None] and a key that is absent are different dictionaries; both
      read as [None] through [item.get(field)].
    - Python [float]s (and [int]s) are exact rationals [Q]; NaN and the
      infinities are not values of a receipt.  [round(x, 2)] is rounding
      of [100 * x] to the nearest integer, ties to even.
    - Python [str] is [string] (one character per byte).
    - Exceptions are explicit: a computation returns [Ok v] or
      [Raise e], and [try ... except ValueError] is a [match]. *)

From stdpp Require Import gmap strings sorting.
From Stdlib Require Import ZArith QArith Qround List Ascii String Bool Lia
  Permutation Sorted.
From Stdlib Require OrderedTypeEx.
Import ListNotations.

Local Open Scope string_scope.
Local Open Scope list_scope.
Local Open Scope Z_scope.

(** ** Exceptions *)

Inductive exn : Type :=
| TypeError
| ValueError
| AttributeError
| ZeroDivisionError
| KeyError
| IndexError
| StatisticsError
| RecursionError.

Inductive result (A : Type) : Type :=
| Ok (a : A)
| Raise (e : exn).

Arguments Ok {A} a.
Arguments Raise {A} e.

Definition bind {A B : Type} (c : result A) (k : A -> result B) : result B :=
  match c with
  | Ok a => k a
  | Raise e => Raise e
  end.

Notation "'let*' x := c 'in' k" := (bind c (fun x => k))
  (at level 10, x name, c at level 200, k at level 200).

Fixpoint mapM {A B : Type} (f : A -> result B) (l : list A) : result (list B) :=
  match l with
  | [] => Ok []
  | x :: xs => let* y := f x in let* ys := mapM f xs in Ok (y :: ys)
  end.

Definition raises {A : Type} (c : result A) : Prop := exists e, c = Raise e.

(** ** Calendar dates ([datetime.datetime]) *)

Record datetime : Type := mkdatetime {
  dt_year : Z;
  dt_month : Z;
  dt_day : Z;
  dt_micros : Z   (* time of day, in microseconds since midnight *)
}.

(** [datetime.min] *)
Definition datetime_min : datetime := mkdatetime 1 1 1 0.

Definition datetime_ltb (a b : datetime) : bool :=
  (dt_year a <? dt_year b)
  || ((dt_year a =? dt_year b)
      && ((dt_month a <? dt_month b)
          || ((dt_month a =? dt_month b)
              && ((dt_day a <? dt_day b)
                  || ((dt_day a =? dt_day b)
                      && (dt_micros a <? dt_micros b)))))).

Definition datetime_eqb (a b : datetime) : bool :=
  (dt_year a =? dt_year b) && (dt_month a =? dt_month b)
  && (dt_day a =? dt_day b) && (dt_micros a =? dt_micros b).

Definition is_leap (y : Z) : bool :=
  (y mod 4 =? 0) && (negb (y mod 100 =? 0) || (y mod 400 =? 0)).

Definition days_in_month (y m : Z) : Z :=
  if m =? 2 then (if is_leap y then 29 else 28)
  else if (m =? 4) || (m =? 6) || (m =? 9) || (m =? 11) then 30
  else 31.

(** The constructor [datetime(year, month, day)]: a [ValueError] (here
    [None]) outside [MINYEAR..MAXYEAR], [1..12] and the month's days. *)
Definition make_datetime (y m d : Z) : option datetime :=
  if (1 <=? y) && (y <=? 9999) && (1 <=? m) && (m <=? 12)
     && (1 <=? d) && (d <=? days_in_month y m)
  then Some (mkdatetime y m d 0)
  else None.

(** ** Strings *)

Definition code (c : ascii) : Z := Z.of_N (N_of_ascii c).

Definition is_digit (c : ascii) : bool := (48 <=? code c) && (code c <=? 57).

Definition digit_val (c : ascii) : Z := code c - 48.

Definition in_range (lo hi : ascii) (c : ascii) : bool :=
  (code lo <=? code c) && (code c <=? code hi).

(** [re.match(r'\d{4}-\d{2}-\d{2}', s)]: the pattern is matched at the
    start of [s]; what follows the tenth character is not looked at. *)
Definition date_shape_chars (cs : list ascii) : bool :=
  match cs with
  | y1 :: y2 :: y3 :: y4 :: s1 :: m1 :: m2 :: s2 :: d1 :: d2 :: _ =>
      is_digit y1 && is_digit y2 && is_digit y3 && is_digit y4
      && Ascii.eqb s1 "-" && is_digit m1 && is_digit m2
      && Ascii.eqb s2 "-" && is_digit d1 && is_digit d2
  | _ => false
  end.

Definition date_shape (s : string) : bool :=
  date_shape_chars (list_ascii_of_string s).

(** [%m] of [_strptime]: [1[0-2]|0[1-9]|[1-9]], followed by the ["-"] of
    the format; returns the month and the text after the dash. *)
Definition parse_month (cs : list ascii) : option (Z * list ascii) :=
  match cs with
  | m1 :: s :: r =>
      if Ascii.eqb s "-" then
        if in_range "1" "9" m1 then Some (digit_val m1, r) else None
      else
        match r with
        | s' :: r' =>
            if Ascii.eqb s' "-"
               && ((Ascii.eqb m1 "1" && in_range "0" "2" s)
                   || (Ascii.eqb m1 "0" && in_range "1" "9" s))
            then Some (10 * digit_val m1 + digit_val s, r')
            else None
        | [] => None
        end
  | _ => None
  end.

(** [%d] of [_strptime]: [3[0-1]|[1-2]\d|0[1-9]|[1-9]| [1-9]], which must
    reach the end of the text (else "unconverted data remains"). *)
Definition parse_day (cs : list ascii) : option Z :=
  match cs with
  | [d1] => if in_range "1" "9" d1 then Some (digit_val d1) else None
  | [d1; d2] =>
      if (Ascii.eqb d1 "3" && in_range "0" "1" d2)
         || (in_range "1" "2" d1 && is_digit d2)
         || (Ascii.eqb d1 "0" && in_range "1" "9" d2)
      then Some (10 * digit_val d1 + digit_val d2)
      else if Ascii.eqb d1 " " && in_range "1" "9" d2
      then Some (digit_val d2)
      else None
  | _ => None
  end.

(** [datetime.strptime(s, '%Y-%m-%d')]; [None] stands for [ValueError]. *)
Definition strptime (s : string) : option datetime :=
  match list_ascii_of_string s with
  | y1 :: y2 :: y3 :: y4 :: s1 :: rest =>
      if is_digit y1 && is_digit y2 && is_digit y3 && is_digit y4
         && Ascii.eqb s1 "-"
      then
        match parse_month rest with
        | Some (m, rest') =>
            match parse_day rest' with
            | Some d =>
                make_datetime
                  (1000 * digit_val y1 + 100 * digit_val y2
                   + 10 * digit_val y3 + digit_val y4) m d
            | None => None
            end
        | None => None
        end
      else None
  | _ => None
  end.

(** ASCII [str.lower()]. *)
Definition lower_char (c : ascii) : ascii :=
  if in_range "A" "Z" c then ascii_of_N (N_of_ascii c + 32) else c.

Fixpoint lower (s : string) : string :=
  match s with
  | EmptyString => EmptyString
  | String c s' => String (lower_char c) (lower s')
  end.

(** [needle in hay], also [hay.find(needle) != -1]. *)
Fixpoint contains (needle hay : string) : bool :=
  String.prefix needle hay
  || match hay with
     | EmptyString => false
     | String _ hay' => contains needle hay'
     end.

(** ** Values and receipts *)

Inductive value : Type :=
| VNone
| VStr (s : string)
| VNum (q : Q)
| VDate (d : datetime).

Abbreviation record := (gmap string value).

(** [item.get(field)] *)
Definition get (item : record) (field : string) : value :=
  match item !! field with
  | Some v => v
  | None => VNone
  end.

(** [item.get(field, default)]: the default replaces an absent key only. *)
Definition get_default (item : record) (field : string) (dflt : value) : value :=
  match item !! field with
  | Some v => v
  | None => dflt
  end.

Definition Qltb (a b : Q) : bool := negb (Qle_bool b a).

(** Truth value of an object: [None], [''] and [0] are false. *)
Definition truthy (v : value) : bool :=
  match v with
  | VNone => false
  | VStr s => negb (String.eqb s "")
  | VNum q => negb (Qeq_bool q 0)
  | VDate _ => true
  end.

Definition is_none (v : value) : bool :=
  match v with VNone => true | _ => false end.

(** [a < b]: defined between two numbers, two strings or two datetimes. *)
Definition py_lt (a b : value) : result bool :=
  match a, b with
  | VNum x, VNum y => Ok (Qltb x y)
  | VStr x, VStr y => Ok (String.ltb x y)
  | VDate x, VDate y => Ok (datetime_ltb x y)
  | _, _ => Raise TypeError
  end.

Definition py_gt (a b : value) : result bool := py_lt b a.

(** [a == b] never raises. *)
Definition py_eq (a b : value) : bool :=
  match a, b with
  | VNone, VNone => true
  | VNum x, VNum y => Qeq_bool x y
  | VStr x, VStr y => String.eqb x y
  | VDate x, VDate y => datetime_eqb x y
  | _, _ => false
  end.

(** The text form [str(x)] of a float and of a datetime, and the parser
    [float(s)] of a string, belong to the Python runtime; the engine is
    verified for every such functions ([None] stands for [ValueError]). *)
Class PyBuiltins : Type := {
  str_of_float : Q -> string;
  str_of_datetime : datetime -> string;
  float_of_str : string -> option Q
}.

(** [str(v)] *)
Definition py_str `{PyBuiltins} (v : value) : string :=
  match v with
  | VNone => "None"
  | VStr s => s
  | VNum q => str_of_float q
  | VDate d => str_of_datetime d
  end.

(** [float(v)] *)
Definition py_float `{PyBuiltins} (v : value) : result Q :=
  match v with
  | VNum q => Ok q
  | VStr s =>
      match float_of_str s with
      | Some q => Ok q
      | None => Raise ValueError
      end
  | VNone | VDate _ => Raise TypeError
  end.

(** [v or 0] *)
Definition or_zero (v : value) : value := if truthy v then v else VNum 0.

(** [v.lower()], an attribute of [str] only. *)
Definition py_lower (v : value) : result string :=
  match v with
  | VStr s => Ok (lower s)
  | _ => Raise AttributeError
  end.

(** ** SearchAlgorithms *)

Module SearchAlgorithms.

(** [keyword_search]: the inner loop stops at the first field that
    contains the keyword. *)
Definition keyword_match `{PyBuiltins} (keyword_lower : string)
    (fields : list string) (item : record) : bool :=
  existsb
    (fun field =>
       contains keyword_lower (lower (py_str (get_default item field (VStr "")))))
    fields.

Definition keyword_search `{PyBuiltins} (data : list record) (keyword : value)
    (fields : list string) : result (list record) :=
  let* keyword_lower := py_lower keyword in
  Ok (List.filter (keyword_match keyword_lower fields) data).

(** [linear_search] *)
Definition linear_search (data : list record) (field : string) (v : value)
  : list record :=
  List.filter (fun item => py_eq (get item field) v) data.

(** The body of the [try] in [range_search].  [min_val] and [max_val] are
    variables of the function, reassigned inside the loop, so the
    outcome carries their new values to the following iterations. *)
Inductive converted : Type :=
| Converted (v min_val max_val : value)
| Skipped (min_val max_val : value).     (* except ValueError: continue *)

(** [b = datetime.strptime(b, '%Y-%m-%d') if isinstance(b, str) else b],
    under [if b:] *)
Definition convert_bound (b : value) : option value :=
  if truthy b then
    match b with
    | VStr s =>
        match strptime s with
        | Some d => Some (VDate d)
        | None => None
        end
    | _ => Some b
    end
  else Some b.

Definition convert_dates (v min_val max_val : value) : converted :=
  match v with
  | VStr s =>
      if date_shape s then
        match strptime s with
        | None => Skipped min_val max_val
        | Some d =>
            match convert_bound min_val with
            | None => Skipped min_val max_val
            | Some min' =>
                match convert_bound max_val with
                | None => Skipped min' max_val
                | Some max' => Converted (VDate d) min' max'
                end
            end
        end
      else Converted v min_val max_val
  | _ => Converted v min_val max_val
  end.

(** [bound is not None and cmp(value, bound)] *)
Definition outside (cmp : value -> value -> result bool) (v bound : value)
  : result bool :=
  if is_none bound then Ok false else cmp v bound.

Fixpoint range_loop (field : string) (min_val max_val : value)
    (data : list record) : result (list record) :=
  match data with
  | [] => Ok []
  | item :: rest =>
      let v := get item field in
      if is_none v then range_loop field min_val max_val rest
      else
        match convert_dates v min_val max_val with
        | Skipped min' max' => range_loop field min' max' rest
        | Converted v' min' max' =>
            let* below := outside py_lt v' min' in
            if below then range_loop field min' max' rest
            else
              let* above := outside py_gt v' max' in
              if above then range_loop field min' max' rest
              else
                let* found := range_loop field min' max' rest in
                Ok (item :: found)
        end
  end.

Definition range_search (data : list record) (field : string)
    (min_val max_val : value) : result (list record) :=
  range_loop field min_val max_val data.

End SearchAlgorithms.

(** ** SortingAlgorithms *)

Module SortingAlgorithms.

Section Sorted.
Context {A K : Type}.
(** [lt k1 k2] is the comparison [k1 < k2] of two keys, the only one
    [sorted] uses. *)
Variable lt : K -> K -> result bool.

(** Insertion of a decorated element in front of an ordered list: [x]
    comes earlier in the input than every element of [l], so it passes
    only the elements that are strictly smaller. *)
Fixpoint insert (x : K * A) (l : list (K * A)) : result (list (K * A)) :=
  match l with
  | [] => Ok [x]
  | y :: ys =>
      let* smaller := lt (fst y) (fst x) in
      if smaller then
        let* ys' := insert x ys in Ok (y :: ys')
      else Ok (x :: y :: ys)
  end.

Fixpoint stable_sort (l : list (K * A)) : result (list (K * A)) :=
  match l with
  | [] => Ok []
  | x :: xs => let* xs' := stable_sort xs in insert x xs'
  end.

(** The builtin [sorted(data, key=key_func, reverse=reverse)].  The
    keys are computed first, once per element and in order.  The sort
    is stable; with [reverse] the list is reversed, sorted and reversed
    again, which keeps equal keys in their input order.  CPython's
    merge strategy compares other pairs than this insertion sort, but
    a sort that ends has compared across every two kinds of keys that
    occur, so both raise on the same inputs and, being stable ascending
    sorts, agree on all others. *)
Definition sorted (data : list A) (key_func : A -> result K)
    (reverse : bool) : result (list A) :=
  let* keys := mapM key_func data in
  let decorated := combine keys data in
  if reverse then
    let* s := stable_sort (rev decorated) in Ok (map snd (rev s))
  else
    let* s := stable_sort decorated in Ok (map snd s).

(** [timsort] *)
Definition timsort (data : list A) (key_func : A -> result K)
    (reverse : bool) : result (list A) :=
  sorted data key_func reverse.
End Sorted.

Section Quicksort.
Context {A K : Type}.
(** The three comparisons [<], [==] and [>] of the keys. *)
Variables ltb eqb gtb : K -> K -> bool.
Variable key_func : A -> K.

(** [quicksort]; [fuel] bounds the depth of the recursion, and running
    out of it is Python's [RecursionError]. *)
Fixpoint quicksort_fuel (fuel : nat) (arr : list A) : result (list A) :=
  if (List.length arr <=? 1)%nat then Ok arr
  else
    match fuel with
    | O => Raise RecursionError
    | S fuel' =>
        match nth_error arr (List.length arr / 2)%nat with
        | None => Raise IndexError
        | Some pivot =>
            let pivot_key := key_func pivot in
            let left := List.filter (fun x => ltb (key_func x) pivot_key) arr in
            let middle := List.filter (fun x => eqb (key_func x) pivot_key) arr in
            let right := List.filter (fun x => gtb (key_func x) pivot_key) arr in
            let* l := quicksort_fuel fuel' left in
            let* r := quicksort_fuel fuel' right in
            Ok (l ++ middle ++ r)
        end
    end.

(** A call on a list that does not shrink repeats itself for ever, so
    a depth of [length arr] is reached only by a recursion without
    end. *)
Definition quicksort (arr : list A) : result (list A) :=
  quicksort_fuel (List.length arr) arr.
End Quicksort.

(** *** [multi_field_sort] *)

(** The component of the key tuple for one pair [(field, reverse)]:
    [item.get(field, '') if not reverse else
     -item.get(field, 0) if isinstance(item.get(field), (int, float))
     else item.get(field, '')]. *)
Definition sort_component (item : record) (fr : string * bool) : value :=
  let (field, reverse) := fr in
  if negb reverse then get_default item field (VStr "")
  else
    match get item field with
    | VNum q => VNum (- q)
    | _ => get_default item field (VStr "")
    end.

(** [a < b] on tuples: the first components that are not equal decide;
    if there are none, the shorter tuple is the smaller. *)
Fixpoint tuple_lt (a b : list value) : result bool :=
  match a, b with
  | x :: a', y :: b' => if py_eq x y then tuple_lt a' b' else py_lt x y
  | [], _ :: _ => Ok true
  | _, [] => Ok false
  end.

Definition multi_field_sort (data : list record) (sort_fields : list (string * bool))
  : result (list record) :=
  sorted tuple_lt data (fun item => Ok (map (sort_component item) sort_fields)) false.

(** *** [quicksort] on list objects

    A Python list is an object that a callee could alter under the eyes
    of its caller.  To say what [quicksort] does to its argument, the
    lists live in a store: a reference is a position in it, a list
    comprehension or a [+] allocates a new object behind the existing
    ones, and [return arr] hands back the reference it was given. *)
Section QuicksortObjects.
Context {A K : Type}.
Variables ltb eqb gtb : K -> K -> bool.
Variable key_func : A -> K.

Definition store : Type := list (list A).

Definition deref (h : store) (ref : nat) : list A := nth ref h [].

Definition alloc (h : store) (v : list A) : store * nat :=
  (h ++ [v], List.length h).

Fixpoint quicksort_obj (fuel : nat) (h : store) (arr : nat) : result (store * nat) :=
  if (List.length (deref h arr) <=? 1)%nat then Ok (h, arr)
  else
    match fuel with
    | O => Raise RecursionError
    | S fuel' =>
        match nth_error (deref h arr) (List.length (deref h arr) / 2)%nat with
        | None => Raise IndexError
        | Some pivot =>
            let pivot_key := key_func pivot in
            let '(h1, left_ref) :=
              alloc h (List.filter (fun x => ltb (key_func x) pivot_key) (deref h arr)) in
            let '(h2, middle_ref) :=
              alloc h1 (List.filter (fun x => eqb (key_func x) pivot_key) (deref h1 arr)) in
            let '(h3, right_ref) :=
              alloc h2 (List.filter (fun x => gtb (key_func x) pivot_key) (deref h2 arr)) in
            let* sl := quicksort_obj fuel' h3 left_ref in
            let* sr := quicksort_obj fuel' (fst sl) right_ref in
            let h5 := fst sr in
            let '(h6, lm) := alloc h5 (deref h5 (snd sl) ++ deref h5 middle_ref) in
            Ok (alloc h6 (deref h6 lm ++ deref h6 (snd sr)))
        end
    end.
End QuicksortObjects.

End SortingAlgorithms.

(** ** Numbers *)

(** Nearest integer, ties to the even one. *)
Definition round_half_even (q : Q) : Z :=
  let f := Qfloor q in
  match Qcompare (q - inject_Z f) (1 # 2) with
  | Lt => f
  | Gt => f + 1
  | Eq => if Z.even f then f else f + 1
  end.

(** [round(q, 2)] *)
Definition round2 (q : Q) : Q := Qmake (round_half_even (q * 100)) 100.

(** [sum(l)] *)
Definition Qsum (l : list Q) : Q := fold_left Qplus l 0%Q.

Definition Qlen {A : Type} (l : list A) : Q := inject_Z (Z.of_nat (List.length l)).

(** [x < y] on floats, as a comparison that cannot raise. *)
Definition float_lt (x y : Q) : result bool := Ok (Qltb x y).

(** Slice bounds as Python normalises them: a negative index counts from
    the end, and both ends are clipped to the list. *)
Definition clamp_index (len i : Z) : Z :=
  let i' := if i <? 0 then i + len else i in
  if i' <? 0 then 0 else if len <? i' then len else i'.

(** [l[i:j]] *)
Definition py_slice {A : Type} (l : list A) (i j : Z) : list A :=
  let len := Z.of_nat (List.length l) in
  let a := clamp_index len i in
  let b := clamp_index len j in
  firstn (Z.to_nat (b - a)) (skipn (Z.to_nat a) l).

(** [range(n)] *)
Definition range (n : Z) : list Z := map Z.of_nat (seq 0 (Z.to_nat n)).

(** ** The [statistics] module *)

(** [statistics.mean] *)
Definition statistics_mean (data : list Q) : result Q :=
  match data with
  | [] => Raise StatisticsError
  | _ => Ok (Qsum data / Qlen data)%Q
  end.

(** [statistics.median]: the middle of the sorted data, or the mean of
    the two middle values. *)
Definition statistics_median (data : list Q) : result Q :=
  let* s := SortingAlgorithms.sorted float_lt data (fun x => Ok x) false in
  let n := List.length s in
  if (n =? 0)%nat then Raise StatisticsError
  else if (n mod 2 =? 1)%nat then Ok (nth (n / 2) s 0%Q)
  else Ok ((nth (n / 2 - 1) s 0%Q + nth (n / 2) s 0%Q) / 2)%Q.

(** [collections.Counter]: the counts by value, in order of first
    occurrence. *)
Fixpoint count_add (x : Q) (c : list (Q * nat)) : list (Q * nat) :=
  match c with
  | [] => [(x, 1%nat)]
  | (y, n) :: c' =>
      if Qeq_bool y x then (y, S n) :: c' else (y, n) :: count_add x c'
  end.

Definition Counter (data : list Q) : list (Q * nat) :=
  fold_left (fun c x => count_add x c) data [].

(** [max(items, key=itemgetter(1))]: the first item of greatest count. *)
Fixpoint first_max (best : Q * nat) (items : list (Q * nat)) : Q * nat :=
  match items with
  | [] => best
  | p :: items' =>
      if (snd best <? snd p)%nat then first_max p items' else first_max best items'
  end.

(** [statistics.mode] as of Python 3.8: [Counter(data).most_common(1)],
    that is the first value met among the most frequent ones; it raises
    [StatisticsError] on empty data only. *)
Definition statistics_mode (data : list Q) : result Q :=
  match Counter data with
  | [] => Raise StatisticsError
  | p :: ps => Ok (fst (first_max p ps))
  end.

(** ** AggregationAlgorithms *)

Module AggregationAlgorithms.

Record basic_stats : Type := mk_basic_stats {
  stats_sum : Q;
  stats_mean : Q;
  stats_median : Q;
  stats_mode : Q
}.

(** [calculate_basic_stats] *)
Definition calculate_basic_stats (amounts : list Q) : result basic_stats :=
  match amounts with
  | [] => Ok (mk_basic_stats 0 0 0 0)
  | _ =>
      let total_sum := Qsum amounts in
      let* mean_val := statistics_mean amounts in
      let* median_val := statistics_median amounts in
      let* mode_val :=
        match statistics_mode (map round2 amounts) with
        | Raise StatisticsError => Ok median_val   (* fallback of the source *)
        | r => r
        end in
      Ok (mk_basic_stats (round2 total_sum) (round2 mean_val)
            (round2 median_val) (round2 mode_val))
  end.

(** [moving_average] *)
Definition moving_average (data : list Q) (window_size : Z) : result (list Q) :=
  let len := Z.of_nat (List.length data) in
  if len <? window_size then Ok data
  else
    mapM (fun i =>
            let window := py_slice data i (i + window_size) in
            if window_size =? 0 then Raise ZeroDivisionError
            else Ok (round2 (Qsum window / inject_Z window_size)))
         (range (len - window_size + 1)).

(** A row of [time_series_aggregation]. *)
Record month_row : Type := mk_month_row {
  row_month : string;
  row_amount : Q;
  row_date_sort : string
}.

Record trend_result : Type := mk_trend_result {
  trend : string;
  growth_rate : Q;
  trend_moving_average : option (list Q)   (* absent on insufficient data *)
}.

Definition average (l : list Q) : Q :=
  match l with
  | [] => 0
  | _ => Qsum l / Qlen l
  end.

Definition first_half (amounts : list Q) : list Q :=
  firstn (List.length amounts / 2) amounts.

Definition second_half (amounts : list Q) : list Q :=
  skipn (List.length amounts / 2) amounts.

Definition growth (first_avg second_avg : Q) : Q :=
  if Qltb 0 first_avg then (second_avg - first_avg) / first_avg * 100 else 0.

Definition classify (growth_rate : Q) : string :=
  if Qltb 5 growth_rate then "increasing"
  else if Qltb growth_rate (-5) then "decreasing"
  else "stable".

(** [calculate_trends] *)
Definition calculate_trends (monthly_data : list month_row) : result trend_result :=
  if (List.length monthly_data <? 2)%nat
  then Ok (mk_trend_result "insufficient_data" 0 None)
  else
    let amounts := map row_amount monthly_data in
    let first_avg := average (first_half amounts) in
    let second_avg := average (second_half amounts) in
    let growth_rate := growth first_avg second_avg in
    let* ma := moving_average amounts 3 in
    Ok (mk_trend_result (classify growth_rate) (round2 growth_rate) (Some ma)).

(** *** Grouped sums *)

(** The [defaultdict] of the grouped aggregations: the groups in order
    of first occurrence, each with its count and its running total. *)
Definition groups : Type := list (value * (nat * Q)).

(** [d[key]['count'] += 1; d[key]['total'] += amount] *)
Fixpoint group_add (key : value) (amount : Q) (d : groups) : groups :=
  match d with
  | [] => [(key, (1%nat, (0 + amount)%Q))]
  | (k, (n, t)) :: d' =>
      if py_eq k key then (k, (S n, (t + amount)%Q)) :: d'
      else (k, (n, t)) :: group_add key amount d'
  end.

(** The loop shared by [vendor_aggregation] and [category_aggregation]:
    [key = receipt.get(field, default)],
    [amount = receipt.get('amount', 0) or 0], then the update with
    [float(amount)]. *)
Fixpoint group_loop `{PyBuiltins} (field : string) (dflt : value)
    (receipts : list record) (d : groups) : result groups :=
  match receipts with
  | [] => Ok d
  | receipt :: rest =>
      let key := get_default receipt field dflt in
      let amount := or_zero (get_default receipt "amount" (VNum 0)) in
      let* a := py_float amount in
      group_loop field dflt rest (group_add key a d)
  end.

Record vendor_row : Type := mk_vendor_row {
  vr_vendor : value;
  vr_count : nat;
  vr_total : Q;
  vr_average : Q
}.

Definition vendor_row_of (g : value * (nat * Q)) : vendor_row :=
  let '(vendor, (count, total)) := g in
  mk_vendor_row vendor count (round2 total)
    (if (0 <? count)%nat then round2 (total / inject_Z (Z.of_nat count)) else 0).

(** [vendor_aggregation] *)
Definition vendor_aggregation `{PyBuiltins} (receipts : list record)
  : result (list vendor_row) :=
  let* vendor_stats := group_loop "vendor" (VStr "Unknown") receipts [] in
  let result := map vendor_row_of vendor_stats in
  SortingAlgorithms.sorted float_lt result (fun x => Ok (vr_total x)) true.

Record category_row : Type := mk_category_row {
  cr_category : value;
  cr_count : nat;
  cr_amount : Q
}.

Definition category_row_of (g : value * (nat * Q)) : category_row :=
  let '(category, (count, amount)) := g in
  mk_category_row category count (round2 amount).

(** [category_aggregation] *)
Definition category_aggregation `{PyBuiltins} (receipts : list record)
  : result (list category_row) :=
  let* category_stats := group_loop "category" (VStr "Uncategorized") receipts [] in
  let result := map category_row_of category_stats in
  SortingAlgorithms.sorted float_lt result (fun x => Ok (cr_amount x)) true.

(** *** Monthly series *)

Definition digit_char (d : Z) : ascii := ascii_of_N (Z.to_N (48 + d mod 10)).

(** [%Y], four digits (the C library pads the year on most platforms;
    where it does not, years before 1000 print shorter). *)
Definition year_text (y : Z) : string :=
  String (digit_char (y / 1000)) (String (digit_char (y / 100))
    (String (digit_char (y / 10)) (String (digit_char y) EmptyString))).

(** [strftime('%Y-%m')] *)
Definition strftime_Ym (d : datetime) : string :=
  year_text (dt_year d)
  ++ String "-" (String (digit_char (dt_month d / 10))
                   (String (digit_char (dt_month d)) EmptyString)).

(** [%b] in the C locale. *)
Definition month_abbr (m : Z) : string :=
  nth (Z.to_nat (m - 1))
    ["Jan"; "Feb"; "Mar"; "Apr"; "May"; "Jun";
     "Jul"; "Aug"; "Sep"; "Oct"; "Nov"; "Dec"] "".

(** [strftime('%b %Y')] *)
Definition strftime_bY (d : datetime) : string :=
  month_abbr (dt_month d) ++ " " ++ year_text (dt_year d).

(** [datetime.strptime(s, '%Y-%m')]; the day defaults to 1. *)
Definition strptime_Ym (s : string) : option datetime :=
  match list_ascii_of_string s with
  | y1 :: y2 :: y3 :: y4 :: s1 :: rest =>
      if is_digit y1 && is_digit y2 && is_digit y3 && is_digit y4
         && Ascii.eqb s1 "-"
      then
        let year := 1000 * digit_val y1 + 100 * digit_val y2
                    + 10 * digit_val y3 + digit_val y4 in
        match rest with
        | [m1] =>
            if in_range "1" "9" m1 then make_datetime year (digit_val m1) 1
            else None
        | [m1; m2] =>
            if (Ascii.eqb m1 "1" && in_range "0" "2" m2)
               || (Ascii.eqb m1 "0" && in_range "1" "9" m2)
            then make_datetime year (10 * digit_val m1 + digit_val m2) 1
            else None
        | _ => None
        end
      else None
  | _ => None
  end.

(** [monthly_stats[month_key] += amount] on a [defaultdict(float)].  The
    entry is read, hence created, before [float(amount)] is evaluated:
    when that raises [ValueError] ([amount = None] here) the month stays
    in the dictionary with what it held. *)
Fixpoint month_add (key : string) (amount : option Q) (d : list (string * Q))
  : list (string * Q) :=
  match d with
  | [] => [(key, match amount with Some a => (0 + a)%Q | None => 0%Q end)]
  | (k, t) :: d' =>
      if String.eqb k key
      then (k, match amount with Some a => (t + a)%Q | None => t end) :: d'
      else (k, t) :: month_add key amount d'
  end.

Fixpoint month_loop `{PyBuiltins} (receipts : list record) (d : list (string * Q))
  : result (list (string * Q)) :=
  match receipts with
  | [] => Ok d
  | receipt :: rest =>
      let date_str := get receipt "date" in
      let amount := or_zero (get_default receipt "amount" (VNum 0)) in
      if truthy date_str then
        match date_str with
        | VStr s =>
            match strptime s with
            | None => month_loop rest d            (* except ValueError: continue *)
            | Some date_obj =>
                let month_key := strftime_Ym date_obj in
                match py_float amount with
                | Ok a => month_loop rest (month_add month_key (Some a) d)
                | Raise ValueError => month_loop rest (month_add month_key None d)
                | Raise e => Raise e
                end
            end
        | _ => Raise TypeError                     (* strptime of a non-string *)
        end
      else month_loop rest d
  end.

Fixpoint month_rows (d : list (string * Q)) : list month_row :=
  match d with
  | [] => []
  | (month, amount) :: d' =>
      match strptime_Ym month with
      | Some date_obj =>
          mk_month_row (strftime_bY date_obj) (round2 amount) month :: month_rows d'
      | None => month_rows d'
      end
  end.

Definition str_lt (x y : string) : result bool := Ok (String.ltb x y).

(** [time_series_aggregation] *)
Definition time_series_aggregation `{PyBuiltins} (receipts : list record)
  : result (list month_row) :=
  let* monthly_stats := month_loop receipts [] in
  SortingAlgorithms.sorted str_lt (month_rows monthly_stats)
    (fun x => Ok (row_date_sort x)) false.

(** *** Frequencies *)







End AggregationAlgorithms.

(** ** ComplexQueryEngine *)

Module ComplexQueryEngine.
Import SearchAlgorithms SortingAlgorithms AggregationAlgorithms.

(** What [sort_key] returns: a value of the receipt, or one of the
    floats [float('-inf')] and [float('inf')]. *)
Inductive sortkey : Type :=
| KVal (v : value)
| KInf (negative : bool).

(** [k1 < k2] on sort keys; an infinity is a float and compares with
    numbers only. *)
Definition key_lt (k1 k2 : sortkey) : result bool :=
  match k1, k2 with
  | KVal a, KVal b => py_lt a b
  | KInf n, KVal (VNum _) => Ok n
  | KVal (VNum _), KInf n => Ok (negb n)
  | KInf n1, KInf n2 => Ok (n1 && negb n2)
  | _, _ => Raise TypeError
  end.

(** [k1 == k2] on sort keys. *)
Definition key_eq (k1 k2 : sortkey) : bool :=
  match k1, k2 with
  | KVal a, KVal b => py_eq a b
  | KInf n1, KInf n2 => Bool.eqb n1 n2
  | _, _ => false
  end.

(** [item.get(field)] where the key is any object: only a string can be
    a key of a receipt. *)
Definition get_by (item : record) (field : value) : value :=
  match field with
  | VStr s => get item s
  | _ => VNone
  end.

(** The closure [sort_key] of [execute_query]. *)
Definition sort_key (field : value) (reverse : bool) (item : record)
  : result sortkey :=
  let v := get_by item field in
  if py_eq field (VStr "date") && truthy v then
    match v with
    | VStr s =>
        match strptime s with
        | Some d => Ok (KVal (VDate d))
        | None => Ok (KVal (VDate datetime_min))    (* except ValueError *)
        end
    | _ => Raise TypeError                          (* strptime of a non-string *)
    end
  else if truthy v then Ok (KVal v)
  else Ok (KInf reverse).

Definition search_fields : list string :=
  ["vendor"; "category"; "description"; "extracted_text"].

Fixpoint filterM {A : Type} (f : A -> result bool) (l : list A) : result (list A) :=
  match l with
  | [] => Ok []
  | x :: xs =>
      let* keep := f x in
      let* xs' := filterM f xs in
      Ok (if keep then x :: xs' else xs')
  end.

(** [r.get('vendor', '').lower().find(filters['vendor'].lower()) != -1] *)
Definition vendor_match (wanted : value) (r : record) : result bool :=
  let* v := py_lower (get_default r "vendor" (VStr "")) in
  let* w := py_lower wanted in
  Ok (contains w v).

(** The filters of [execute_query], in the order of the source. *)
Definition filter_stage `{PyBuiltins} (data : list record) (filters : record)
  : result (list record) :=
  let filtered_data := data in
  let* filtered_data :=
    if truthy (get filters "keyword")
    then keyword_search filtered_data (get filters "keyword") search_fields
    else Ok filtered_data in
  let* filtered_data :=
    if truthy (get filters "vendor")
    then filterM (vendor_match (get filters "vendor")) filtered_data
    else Ok filtered_data in
  let filtered_data :=
    if truthy (get filters "category")
    then List.filter (fun r => py_eq (get r "category") (get filters "category"))
           filtered_data
    else filtered_data in
  let* filtered_data :=
    if truthy (get filters "date_from") || truthy (get filters "date_to")
    then range_search filtered_data "date"
           (get filters "date_from") (get filters "date_to")
    else Ok filtered_data in
  if negb (is_none (get filters "amount_min"))
     || negb (is_none (get filters "amount_max"))
  then range_search filtered_data "amount"
         (get filters "amount_min") (get filters "amount_max")
  else Ok filtered_data.

(** [sort_options.get('direction', 'desc') == 'desc'] *)
Definition requested_reverse (sort_options : record) : bool :=
  py_eq (get_default sort_options "direction" (VStr "desc")) (VStr "desc").

(** The sort of [execute_query]. *)
Definition sort_stage (filtered_data : list record) (sort_options : record)
  : result (list record) :=
  if truthy (get sort_options "field") then
    let field := get sort_options "field" in
    let reverse := requested_reverse sort_options in
    timsort key_lt filtered_data (sort_key field reverse) reverse
  else Ok filtered_data.

Record bundle : Type := mk_bundle {
  data : list record;
  count : nat;
  stats : basic_stats;
  vendor_stats : list vendor_row;
  category_stats : list category_row;
  monthly_stats : list month_row
}.

(** [execute_query] *)
Definition execute_query `{PyBuiltins} (input : list record)
    (filters sort_options : record) : result bundle :=
  let* filtered_data := filter_stage input filters in
  let* filtered_data := sort_stage filtered_data sort_options in
  let* amounts :=
    mapM (fun r => py_float (or_zero (get_default r "amount" (VNum 0))))
      filtered_data in
  let* stats := calculate_basic_stats amounts in
  let* vendor_stats := vendor_aggregation filtered_data in
  let* category_stats := category_aggregation filtered_data in
  let* monthly_stats := time_series_aggregation filtered_data in
  Ok (mk_bundle filtered_data (List.length filtered_data) stats
        vendor_stats category_stats monthly_stats).

End ComplexQueryEngine.

(** ** The table of receipts ([database.py]) *)

Module Database.

(** A row of the table [receipts]: the primary key and the file name
    are never [NULL], every other column can be. *)
Record Receipt : Type := mk_Receipt {
  id : Z;
  file_name : string;
  vendor : option string;
  date : option string;
  amount : option Q;
  category : option string;
  description : option string;
  upload_date : option datetime;
  file_type : option string;
  file_size : option Z;
  status : option string;
  extracted_text : option string;
  confidence_score : option Q
}.

(** The Python objects that the columns are read as. *)
Definition text (c : option string) : value :=
  match c with Some s => VStr s | None => VNone end.

Definition number (c : option Q) : value :=
  match c with Some q => VNum q | None => VNone end.

Definition integer (c : option Z) : value :=
  match c with Some z => VNum (inject_Z z) | None => VNone end.

Definition moment (c : option datetime) : value :=
  match c with Some d => VDate d | None => VNone end.

End Database.

(** ** The endpoints ([main.py]), from the rows read to the value
    returned *)

Module Main.
Import AggregationAlgorithms ComplexQueryEngine Database.

(** The dictionary that [get_receipts] builds of a row. *)
Definition receipt_dict (receipt : Receipt) : record :=
  <["id" := VNum (inject_Z (id receipt))]>
  (<["file_name" := VStr (file_name receipt)]>
  (<["vendor" := text (vendor receipt)]>
  (<["date" := text (date receipt)]>
  (<["amount" := number (amount receipt)]>
  (<["category" := text (category receipt)]>
  (<["description" := text (description receipt)]>
  (<["upload_date" := moment (upload_date receipt)]>
  (<["file_type" := text (file_type receipt)]>
  (<["file_size" := integer (file_size receipt)]>
  (<["status" := text (status receipt)]>
  (<["extracted_text" := text (extracted_text receipt)]>
  (<["confidence_score" := number (confidence_score receipt)]> ∅)))))))))))).

(** [get_receipts], on the rows that [db.query(Receipt).all()] returned
    and up to [return result['data']]. *)
Definition get_receipts `{PyBuiltins}
    (keyword vendor category date_from date_to : option string)
    (amount_min amount_max : option Q) (sort_field sort_direction : string)
    (receipts : list Receipt) : result (list record) :=
  let receipts_data := map receipt_dict receipts in
  let filters : record :=
    <["keyword" := text keyword]>
    (<["vendor" := text vendor]>
    (<["category" := text category]>
    (<["date_from" := text date_from]>
    (<["date_to" := text date_to]>
    (<["amount_min" := number amount_min]>
    (<["amount_max" := number amount_max]> ∅)))))) in
  let sort_options : record :=
    <["field" := VStr sort_field]> (<["direction" := VStr sort_direction]> ∅) in
  let* result := execute_query receipts_data filters sort_options in
  Ok (data result).

(** The dictionary that [get_statistics] builds of a row. *)
Definition stats_dict (receipt : Receipt) : record :=
  <["id" := VNum (inject_Z (id receipt))]>
  (<["vendor" := text (vendor receipt)]>
  (<["date" := text (date receipt)]>
  (<["amount" := or_zero (number (amount receipt))]>
  (<["category" := text (category receipt)]>
  (<["upload_date" := moment (upload_date receipt)]> ∅))))).

(** [r[key]] *)
Definition getitem (r : record) (key : string) : result value :=
  match r !! key with
  | Some v => Ok v
  | None => Raise KeyError
  end.

(** [[float(r['amount']) for r in receipts_data if r['amount']]] *)
Fixpoint paid_amounts `{PyBuiltins} (receipts_data : list record) : result (list Q) :=
  match receipts_data with
  | [] => Ok []
  | r :: rest =>
      let* a := getitem r "amount" in
      if truthy a then
        let* a' := getitem r "amount" in
        let* x := py_float a' in
        let* xs := paid_amounts rest in
        Ok (x :: xs)
      else paid_amounts rest
  end.

Record StatsResponse : Type := mk_StatsResponse {
  total_spend : Q;
  total_receipts : nat;
  average_amount : Q;
  median_amount : Q;
  mode_amount : Q;
  top_vendors : list vendor_row;
  category_spending : list category_row;
  monthly_spending : list month_row
}.

(** [get_statistics], on the rows that [db.query(Receipt).all()]
    returned. *)
Definition get_statistics `{PyBuiltins} (receipts : list Receipt)
  : result StatsResponse :=
  let receipts_data := map stats_dict receipts in
  let* amounts := paid_amounts receipts_data in
  let* basic_stats := calculate_basic_stats amounts in
  let* vendor_stats := vendor_aggregation receipts_data in
  let* category_stats := category_aggregation receipts_data in
  let* monthly_stats := time_series_aggregation receipts_data in
  Ok (mk_StatsResponse (stats_sum basic_stats) (List.length receipts_data)
        (stats_mean basic_stats) (stats_median basic_stats) (stats_mode basic_stats)
        (py_slice vendor_stats 0 5) category_stats monthly_stats).

End Main.

(** * Vocabulary of the properties *)

(** A decorated element carries the key of its element. *)
Definition keyed {A K : Type} (key_func : A -> result K) (d : K * A) : Prop :=
  key_func (snd d) = Ok (fst d).

(** [p] holds of the key that [key_func] computes for [x]. *)
Definition on_key {A K : Type} (key_func : A -> result K) (p : K -> bool)
    (x : A) : bool :=
  match key_func x with
  | Ok k => p k
  | Raise _ => false
  end.

(** [d1] may stand before [d2]: [d2] is not smaller. *)
Definition key_le {A K : Type} (lt : K -> K -> result bool) (d1 d2 : K * A)
  : Prop :=
  lt (fst d2) (fst d1) = Ok false.

(** [a] may stand before [b] in an ascending order of the keys. *)
Definition ascending {A K : Type} (lt : K -> K -> result bool)
    (key_func : A -> result K) (a b : A) : Prop :=
  exists ka kb, key_func a = Ok ka /\ key_func b = Ok kb /\ lt kb ka = Ok false.

(** The sort key that the request gives to [r] compares equal to [k]. *)
Definition same_key (sort_options : record) (k : ComplexQueryEngine.sortkey)
    (r : record) : bool :=
  on_key
    (ComplexQueryEngine.sort_key (get sort_options "field")
       (ComplexQueryEngine.requested_reverse sort_options))
    (fun k' => ComplexQueryEngine.key_eq k' k) r.




(** The comparisons [<], [==] and [>] of the keys of a sort order them:
    [>] is [<] read backwards, [==] holds of the keys that [<] does not
    separate, and [<] is a strict order whose complement is
    transitive. *)
Record key_order {K : Type} (ltb eqb gtb : K -> K -> bool) : Prop := {
  ko_gt : forall a b, gtb a b = ltb b a;
  ko_eq : forall a b, eqb a b = negb (ltb a b) && negb (ltb b a);
  ko_irrefl : forall a, ltb a a = false;
  ko_trans : forall a b c, ltb a b = true -> ltb b c = true -> ltb a c = true;
  ko_negtrans :
    forall a b c, ltb a b = false -> ltb b c = false -> ltb a c = false
}.



(** [a] may stand before [b] in a descending order of the keys. *)
Definition descending {A K : Type} (lt : K -> K -> result bool)
    (key_func : A -> result K) (a b : A) : Prop :=
  exists ka kb, key_func a = Ok ka /\ key_func b = Ok kb /\ lt ka kb = Ok false.

(** The group that a key reads in the dictionary of a grouped
    aggregation: the first, and as it turns out the only, entry whose
    key is equal to it. *)
Fixpoint find_group (k : value) (d : AggregationAlgorithms.groups)
  : option (nat * Q) :=
  match d with
  | [] => None
  | (k', acc) :: d' => if py_eq k' k then Some acc else find_group k d'
  end.




Definition amount_of `{PyBuiltins} (r : record) : result Q :=
  py_float (or_zero (get_default r "amount" (VNum 0))).




(** A bound of the date filter that is given and is not a date. *)
Definition malformed_bound (v : value) : Prop :=
  exists s, v = VStr s /\ s <> "" /\ strptime s = None.

(** A date field that is absent, [None], or a string of the shape
    [dddd-dd-dd] (with anything behind). *)
Definition shaped_date (r : record) : Prop :=
  get r "date" = VNone \/ exists s, get r "date" = VStr s /\ date_shape s = true.

(** A runtime for the closed examples below, none of which prints a
    number or parses one. *)
Definition sample_runtime : PyBuiltins := {|
  str_of_float := fun _ => "0.0";
  str_of_datetime := fun _ => "0001-01-01 00:00:00";
  float_of_str := fun _ => None
|}.

(** *** Vocabulary of the further properties *)

(** A bound of a numeric range, as the caller passes it. *)
Definition number_bound (b : option Q) : value :=
  match b with
  | Some q => VNum q
  | None => VNone
  end.

(** The field holds a number between the bounds, both included. *)
Definition number_within (field : string) (lo hi : option Q) (r : record) : bool :=
  match get r field with
  | VNum a =>
      match lo with Some l => Qle_bool l a | None => true end
      && match hi with Some h => Qle_bool a h | None => true end
  | _ => false
  end.

(** The field is absent, [None] or a number. *)
Definition numeric_field (field : string) (r : record) : Prop :=
  get r field = VNone \/ exists a, get r field = VNum a.

(** A bound of the date filter and the date it stands for: no bound, or
    a string that [strptime] reads. *)
Definition date_bound (b : value) (d : option datetime) : Prop :=
  (b = VNone /\ d = None)
  \/ exists s dt, b = VStr s /\ strptime s = Some dt /\ d = Some dt.

(** The date of the receipt is read by [strptime] and lies between the
    bounds, both included. *)
Definition date_within (lo hi : option datetime) (r : record) : bool :=
  match get r "date" with
  | VStr s =>
      match strptime s with
      | Some d =>
          match lo with Some l => negb (datetime_ltb d l) | None => true end
          && match hi with Some h => negb (datetime_ltb h d) | None => true end
      | None => false
      end
  | _ => false
  end.

(** The date field is absent, [None], or a date [YYYY-MM-DD]. *)
Definition iso_date (r : record) : Prop :=
  get r "date" = VNone
  \/ exists s d, get r "date" = VStr s /\ date_shape s = true /\ strptime s = Some d.

(** The kinds of sort keys: keys of two kinds do not compare. *)
Inductive key_kind : Type := KindNumber | KindText | KindDate | KindNone.

Definition kind_of (k : ComplexQueryEngine.sortkey) : key_kind :=
  match k with
  | ComplexQueryEngine.KVal (VNum _) | ComplexQueryEngine.KInf _ => KindNumber
  | ComplexQueryEngine.KVal (VStr _) => KindText
  | ComplexQueryEngine.KVal (VDate _) => KindDate
  | ComplexQueryEngine.KVal VNone => KindNone
  end.

(** The sort key that a request gives to a receipt. *)
Definition requested_key (sort_options : record) (r : record)
  : result ComplexQueryEngine.sortkey :=
  ComplexQueryEngine.sort_key (get sort_options "field")
    (ComplexQueryEngine.requested_reverse sort_options) r.

(** The bounds of the date filter while the loop runs: as given, or
    already turned into datetimes. *)
Definition bound_state (b : value) (d : option datetime) : Prop :=
  date_bound b d \/ exists dt, b = VDate dt /\ d = Some dt.




(** The sum of the counts of the groups of a dictionary. *)
Definition total_count (d : AggregationAlgorithms.groups) : nat :=
  list_sum (map (fun g => fst (snd g)) d).

(** The receipt has a date that [strptime] reads. *)
Definition dated (r : record) : bool :=
  match get r "date" with
  | VStr s => match strptime s with Some _ => true | None => false end
  | _ => false
  end.

(** The date field is absent, [None] or a text. *)
Definition text_date (r : record) : Prop :=
  get r "date" = VNone \/ exists s, get r "date" = VStr s.




(** A request without filters: the text filters are absent, [None] or
    empty, and no bound on the amount is given. *)
Definition no_filters (filters : record) : Prop :=
  truthy (get filters "keyword") = false
  /\ truthy (get filters "vendor") = false
  /\ truthy (get filters "category") = false
  /\ truthy (get filters "date_from") = false
  /\ truthy (get filters "date_to") = false
  /\ get filters "amount_min" = VNone
  /\ get filters "amount_max" = VNone.

(** The sort fields with every direction set to ascending. *)
Definition ascending_fields (sort_fields : list (string * bool)) : list (string * bool) :=
  map (fun fr => (fst fr, false)) sort_fields.

(** No field that is to be sorted in reverse holds a number in [item]. *)
Definition no_reversed_number (sort_fields : list (string * bool)) (item : record)
  : Prop :=
  forall field q, In (field, true) sort_fields -> get item field <> VNum q.

(** The amounts of the rows that have one and whose amount is not 0. *)
Fixpoint paid (receipts : list Database.Receipt) : list Q :=
  match receipts with
  | [] => []
  | receipt :: rest =>
      match Database.amount receipt with
      | Some q => if Qeq_bool q 0 then paid rest else q :: paid rest
      | None => paid rest
      end
  end.

(** * Properties *)

Import SearchAlgorithms SortingAlgorithms AggregationAlgorithms ComplexQueryEngine.

(** ** The exception monad *)

Lemma bind_ok {A B : Type} (c : result A) (k : A -> result B) (b : B) :
  bind c k = Ok b -> exists a, c = Ok a /\ k a = Ok b.
Proof. destruct c as [a|e]; simpl; intros E; [eauto | discriminate]. Qed.

(** Splits a hypothesis [let* x := c in k = Ok b] in two. *)
Ltac inv_bind H :=
  let x := fresh "x" in
  let Hx := fresh "H" x in
  apply bind_ok in H; destruct H as (x & Hx & H).

Lemma mapM_pure {A B : Type} (f : A -> result B) (g : A -> B) (l : list A) :
  (forall x, In x l -> f x = Ok (g x)) -> mapM f l = Ok (map g l).
Proof.
  induction l as [|x xs IH]; simpl; intros Hf; [reflexivity|].
  rewrite (Hf x) by auto. simpl. rewrite IH by auto. reflexivity.
Qed.

Lemma mapM_length {A B : Type} (f : A -> result B) (l : list A) (out : list B) :
  mapM f l = Ok out -> List.length out = List.length l.
Proof.
  revert out; induction l as [|x xs IH]; simpl; intros out E.
  - injection E as <-. reflexivity.
  - inv_bind E. inv_bind E. injection E as <-. simpl. f_equal. eauto.
Qed.

Lemma decorated_keyed {A K : Type} (key_func : A -> result K)
    (l : list A) (keys : list K) :
  mapM key_func l = Ok keys -> Forall (keyed key_func) (combine keys l).
Proof.
  revert keys; induction l as [|x xs IH]; simpl; intros keys E.
  - injection E as <-. constructor.
  - inv_bind E. inv_bind E. injection E as <-. simpl.
    constructor; [exact Hx0 | eauto].
Qed.

Lemma filter_keyed {A K : Type} (key_func : A -> result K) (p : K -> bool)
    (l : list (K * A)) :
  Forall (keyed key_func) l ->
  List.filter (on_key key_func p) (map snd l)
  = map snd (List.filter (fun d => p (fst d)) l).
Proof.
  induction 1 as [|d l Hd _ IH]; simpl; [reflexivity|].
  unfold on_key at 1. rewrite Hd. destruct (p (fst d)); simpl; rewrite IH; reflexivity.
Qed.

Lemma combine_map_snd {A K : Type} (keys : list K) (l : list A) :
  List.length keys = List.length l -> map snd (combine keys l) = l.
Proof.
  revert keys; induction l as [|x xs IH]; intros [|k ks]; simpl;
    intros E; try discriminate; [reflexivity|].
  f_equal. apply IH. lia.
Qed.

(** ** The stable sort behind [sorted] *)

Section SortedFacts.
Context {A K : Type}.
Variable lt : K -> K -> result bool.

Lemma insert_perm (x : K * A) (l l' : list (K * A)) :
  insert lt x l = Ok l' -> Permutation (x :: l) l'.
Proof.
  revert l'; induction l as [|y ys IH]; simpl; intros l' E.
  - injection E as <-. reflexivity.
  - inv_bind E. destruct x0.
    + inv_bind E. injection E as <-.
      rewrite perm_swap. constructor. eauto.
    + injection E as <-. reflexivity.
Qed.

Lemma stable_sort_perm (l l' : list (K * A)) :
  stable_sort lt l = Ok l' -> Permutation l l'.
Proof.
  revert l'; induction l as [|x xs IH]; simpl; intros l' E.
  - injection E as <-. reflexivity.
  - inv_bind E. rewrite (IH _ Hx0). eapply insert_perm; eauto.
Qed.

(** *** Stability: a class of keys that [lt] never separates keeps its
    order. *)
Section Stability.
Variable p : K -> bool.
Hypothesis p_not_lt :
  forall a b, p a = true -> p b = true -> lt a b <> Ok true.

Let pd (d : K * A) : bool := p (fst d).

Lemma insert_filter (x : K * A) (l l' : list (K * A)) :
  insert lt x l = Ok l' ->
  List.filter pd l' = List.filter pd (x :: l).
Proof using p_not_lt.
  revert l'; induction l as [|y ys IH]; simpl; intros l' E.
  - injection E as <-. reflexivity.
  - inv_bind E. destruct x0.
    + inv_bind E. injection E as <-. simpl.
      rewrite (IH _ Hx1). simpl. unfold pd.
      destruct (p (fst x)) eqn:Px, (p (fst y)) eqn:Py; try reflexivity.
      exfalso. exact (p_not_lt _ _ Py Px Hx0).
    + injection E as <-. reflexivity.
Qed.

Lemma stable_sort_filter (l l' : list (K * A)) :
  stable_sort lt l = Ok l' -> List.filter pd l' = List.filter pd l.
Proof using p_not_lt.
  revert l'; induction l as [|x xs IH]; simpl; intros l' E.
  - injection E as <-. reflexivity.
  - inv_bind E. rewrite (insert_filter _ _ _ E). simpl.
    rewrite (IH _ Hx0). reflexivity.
Qed.

Lemma sorted_stable (data out : list A) (key_func : A -> result K)
    (reverse : bool) :
  sorted lt data key_func reverse = Ok out ->
  List.filter (on_key key_func p) out = List.filter (on_key key_func p) data.
Proof using p_not_lt.
  unfold sorted. intros E. inv_bind E. rename x into keys.
  pose proof (decorated_keyed key_func data keys Hx) as Hk.
  rewrite <- (combine_map_snd keys data (mapM_length _ _ _ Hx)) at 1.
  rewrite (filter_keyed key_func p _ Hk).
  destruct reverse; inv_bind E; injection E as <-.
  - assert (Hk' : Forall (keyed key_func) (rev x)).
    { apply Forall_rev.
      eapply Permutation_Forall; [apply (stable_sort_perm _ _ Hx0)|].
      apply Forall_rev. exact Hk. }
    rewrite (filter_keyed key_func p _ Hk').
    pose proof (stable_sort_filter _ _ Hx0) as Hf. unfold pd in Hf.
    rewrite filter_rev, Hf, filter_rev, rev_involutive.
    reflexivity.
  - assert (Hk' : Forall (keyed key_func) x).
    { eapply Permutation_Forall; [apply (stable_sort_perm _ _ Hx0)|]. exact Hk. }
    pose proof (stable_sort_filter _ _ Hx0) as Hf. unfold pd in Hf.
    rewrite (filter_keyed key_func p _ Hk'), Hf.
    reflexivity.
Qed.
End Stability.
End SortedFacts.

Section SortedOrder.
Context {A K : Type}.
Variable lt : K -> K -> result bool.

Lemma sorted_perm (data out : list A) (key_func : A -> result K)
    (reverse : bool) :
  sorted lt data key_func reverse = Ok out -> Permutation data out.
Proof.
  unfold sorted. intros E. inv_bind E. rename x into keys.
  rewrite <- (combine_map_snd keys data (mapM_length _ _ _ Hx)) at 1.
  destruct reverse; inv_bind E; injection E as <-; apply Permutation_map.
  - rewrite <- (Permutation_rev x).
    rewrite <- (stable_sort_perm _ _ _ Hx0). apply Permutation_rev.
  - apply (stable_sort_perm _ _ _ Hx0).
Qed.

(** *** Order of the output, for comparisons that behave as an order
    on the keys they accept. *)
Hypothesis lt_asym : forall a b, lt a b = Ok true -> lt b a = Ok false.
Hypothesis le_trans :
  forall a b c, lt b a = Ok false -> lt c b = Ok false -> lt c a = Ok false.

Lemma insert_Forall (P : K * A -> Prop) (x : K * A) (l l' : list (K * A)) :
  insert lt x l = Ok l' -> P x -> Forall P l -> Forall P l'.
Proof.
  intros E Px Pl. eapply Permutation_Forall; [eapply insert_perm; eauto|].
  constructor; assumption.
Qed.

Lemma insert_sorted (x : K * A) (l l' : list (K * A)) :
  StronglySorted (key_le lt) l -> insert lt x l = Ok l' ->
  StronglySorted (key_le lt) l'.
Proof using lt_asym le_trans.
  intros Hs; revert l'; induction Hs as [|y ys Hs IH Hy]; simpl; intros l' E.
  - injection E as <-. repeat constructor.
  - inv_bind E. destruct x0.
    + inv_bind E. injection E as <-. constructor; [eauto|].
      eapply insert_Forall; eauto. apply lt_asym. exact Hx0.
    + injection E as <-. constructor; [constructor; assumption|].
      constructor; [exact Hx0|].
      eapply Forall_impl; [|exact Hy]. intros z Hz.
      unfold key_le in *. eapply le_trans; eauto.
Qed.

Lemma stable_sort_sorted (l l' : list (K * A)) :
  stable_sort lt l = Ok l' -> StronglySorted (key_le lt) l'.
Proof using lt_asym le_trans.
  revert l'; induction l as [|x xs IH]; simpl; intros l' E.
  - injection E as <-. constructor.
  - inv_bind E. eapply insert_sorted; eauto.
Qed.

Lemma sorted_ascending (data out : list A) (key_func : A -> result K) :
  sorted lt data key_func false = Ok out ->
  StronglySorted (ascending lt key_func) out.
Proof using lt_asym le_trans.
  unfold sorted. intros E. inv_bind E. rename x into keys.
  inv_bind E. injection E as <-.
  assert (Hk : Forall (keyed key_func) x).
  { eapply Permutation_Forall; [apply (stable_sort_perm _ _ _ Hx0)|].
    eapply decorated_keyed; eauto. }
  pose proof (stable_sort_sorted _ _ Hx0) as Hs.
  clear Hx0. induction Hs as [|d ds Hs IH Hd]; simpl; [constructor|].
  inversion Hk as [|? ? Kd Kds]; subst. constructor; [auto|].
  rewrite Forall_forall in *. intros b Hb.
  apply in_map_iff in Hb as (d' & <- & Hd').
  exists (fst d), (fst d'). repeat split; [exact Kd | apply Kds, Hd' | apply Hd, Hd'].
Qed.

Lemma StronglySorted_rev {B : Type} (R : B -> B -> Prop) (l : list B) :
  StronglySorted R l -> StronglySorted (fun a b => R b a) (rev l).
Proof.
  induction 1 as [|x xs Hs IH Hx]; simpl; [constructor|].
  apply StronglySorted_app. split; [|split; [exact IH | repeat constructor]].
  intros a b Ha%list_elem_of_In Hb%list_elem_of_In.
  destruct Hb as [<-|[]]. rewrite Forall_forall in Hx.
  apply Hx, in_rev, Ha.
Qed.

Lemma sorted_descending (data out : list A) (key_func : A -> result K) :
  sorted lt data key_func true = Ok out ->
  StronglySorted (descending lt key_func) out.
Proof using lt_asym le_trans.
  unfold sorted. intros E. inv_bind E. rename x into keys.
  inv_bind E. injection E as <-.
  assert (Hk : Forall (keyed key_func) (rev x)).
  { apply Forall_rev.
    eapply Permutation_Forall; [apply (stable_sort_perm _ _ _ Hx0)|].
    apply Forall_rev. eapply decorated_keyed; eauto. }
  pose proof (StronglySorted_rev _ _ (stable_sort_sorted _ _ Hx0)) as Hs.
  clear Hx0. induction Hs as [|d ds Hs IH Hd]; simpl; [constructor|].
  inversion Hk as [|? ? Kd Kds]; subst. constructor; [auto|].
  rewrite Forall_forall in *. intros b Hb.
  apply in_map_iff in Hb as (d' & <- & Hd').
  exists (fst d), (fst d'). repeat split; [exact Kd | apply Kds, Hd' | apply Hd, Hd'].
Qed.
End SortedOrder.

(** *** A comparison that cannot raise sorts every list. *)
Section SortedTotal.
Context {A K : Type}.
Variable lt : K -> K -> result bool.
Hypothesis lt_total : forall a b, exists t, lt a b = Ok t.

Lemma insert_total (x : K * A) (l : list (K * A)) :
  exists l', insert lt x l = Ok l'.
Proof using lt_total.
  induction l as [|y ys [l' IH]]; simpl; [eauto|].
  destruct (lt_total (fst y) (fst x)) as [[] ->]; simpl; [|eauto].
  rewrite IH. simpl. eauto.
Qed.

Lemma stable_sort_total (l : list (K * A)) : exists l', stable_sort lt l = Ok l'.
Proof using lt_total.
  induction l as [|x xs [l' IH]]; simpl; [eauto|].
  rewrite IH. simpl. apply insert_total.
Qed.

Lemma sorted_total (data : list A) (key_func : A -> result K) (keys : list K)
    (reverse : bool) :
  mapM key_func data = Ok keys ->
  exists out, sorted lt data key_func reverse = Ok out.
Proof using lt_total.
  intros E. unfold sorted. rewrite E. simpl.
  destruct reverse.
  - destruct (stable_sort_total (rev (combine keys data))) as [s ->]. simpl. eauto.
  - destruct (stable_sort_total (combine keys data)) as [s ->]. simpl. eauto.
Qed.
End SortedTotal.

(** ** The comparisons are orders on each kind of value *)

Ltac bool_to_Z :=
  repeat match goal with
  | H : _ |- _ =>
      progress rewrite ?orb_true_iff, ?andb_true_iff, ?orb_false_iff,
        ?andb_false_iff, ?Z.ltb_lt, ?Z.ltb_ge, ?Z.eqb_eq, ?Z.eqb_neq in H
  end;
  rewrite ?orb_true_iff, ?andb_true_iff, ?orb_false_iff, ?andb_false_iff,
    ?Z.ltb_lt, ?Z.ltb_ge, ?Z.eqb_eq, ?Z.eqb_neq.

Lemma Qltb_lt (a b : Q) : Qltb a b = true <-> (a < b)%Q.
Proof.
  unfold Qltb. rewrite negb_true_iff, <- not_true_iff_false, Qle_bool_iff.
  split; [apply Qnot_le_lt | apply Qlt_not_le].
Qed.

Lemma Qltb_ge (a b : Q) : Qltb a b = false <-> (b <= a)%Q.
Proof. unfold Qltb. rewrite negb_false_iff. apply Qle_bool_iff. Qed.

Lemma datetime_ltb_asym (a b : datetime) :
  datetime_ltb a b = true -> datetime_ltb b a = false.
Proof. unfold datetime_ltb. intros H. bool_to_Z. lia. Qed.

Lemma datetime_le_trans (a b c : datetime) :
  datetime_ltb b a = false -> datetime_ltb c b = false -> datetime_ltb c a = false.
Proof. unfold datetime_ltb. intros H1 H2. bool_to_Z. lia. Qed.

Lemma datetime_eqb_not_lt (a b k : datetime) :
  datetime_eqb a k = true -> datetime_eqb b k = true -> datetime_ltb a b = false.
Proof. unfold datetime_eqb, datetime_ltb. intros H1 H2. bool_to_Z. lia. Qed.

Lemma string_ltb_lt (a b : string) : String.ltb a b = true <-> String.compare a b = Lt.
Proof. unfold String.ltb. destruct (String.compare a b); split; congruence. Qed.

Lemma string_compare_trans (a b c : string) :
  String.compare a b = Lt -> String.compare b c = Lt -> String.compare a c = Lt.
Proof.
  intros H1 H2.
  apply OrderedTypeEx.String_as_OT.cmp_lt.
  apply OrderedTypeEx.String_as_OT.cmp_lt in H1, H2.
  eapply OrderedTypeEx.String_as_OT.lt_trans; eauto.
Qed.

Lemma string_ltb_irrefl (a : string) : String.ltb a a = false.
Proof.
  unfold String.ltb.
  replace (String.compare a a) with Eq; [reflexivity|].
  symmetry. apply OrderedTypeEx.String_as_OT.cmp_eq. reflexivity.
Qed.

Lemma string_ltb_asym (a b : string) :
  String.ltb a b = true -> String.ltb b a = false.
Proof.
  unfold String.ltb. rewrite (String.compare_antisym a b).
  destruct (String.compare b a); simpl; congruence.
Qed.

Lemma string_le_trans (a b c : string) :
  String.ltb b a = false -> String.ltb c b = false -> String.ltb c a = false.
Proof.
  intros H1 H2. apply not_true_iff_false. intros H3.
  apply string_ltb_lt in H3.
  destruct (String.compare a b) eqn:Hab.
  - apply String.compare_eq_iff in Hab. subst b.
    apply string_ltb_lt in H3. congruence.
  - pose proof (string_compare_trans _ _ _ H3 Hab) as H4.
    apply string_ltb_lt in H4. congruence.
  - assert (String.compare b a = Lt) as H4
      by (rewrite String.compare_antisym, Hab; reflexivity).
    apply string_ltb_lt in H4. congruence.
Qed.

Lemma Ok_inj {A : Type} (a b : A) : Ok a = Ok b -> a = b.
Proof. congruence. Qed.

Lemma key_lt_asym (a b : sortkey) : key_lt a b = Ok true -> key_lt b a = Ok false.
Proof.
  destruct a as [[]|[]], b as [[]|[]]; simpl; try discriminate;
    intros H%Ok_inj; f_equal; try reflexivity.
  - apply string_ltb_asym, H.
  - apply Qltb_lt in H. apply Qltb_ge. apply Qlt_le_weak, H.
  - apply datetime_ltb_asym, H.
Qed.

Lemma key_le_trans (a b c : sortkey) :
  key_lt b a = Ok false -> key_lt c b = Ok false -> key_lt c a = Ok false.
Proof.
  destruct a as [[]|[]], b as [[]|[]], c as [[]|[]]; simpl; try discriminate;
    intros H1%Ok_inj H2%Ok_inj; f_equal; try reflexivity.
  - eapply string_le_trans; eauto.
  - apply Qltb_ge in H1, H2. apply Qltb_ge. eapply Qle_trans; eauto.
  - eapply datetime_le_trans; eauto.
Qed.

(** Two keys equal to a same third one are never strictly ordered. *)
Lemma key_eq_not_lt (k a b : sortkey) :
  key_eq a k = true -> key_eq b k = true -> key_lt a b <> Ok true.
Proof.
  destruct a as [[]|[]], b as [[]|[]], k as [[]|[]]; simpl; try discriminate;
    intros H1 H2 H%Ok_inj; try discriminate.
  - apply String.eqb_eq in H1, H2. subst. rewrite string_ltb_irrefl in H. discriminate.
  - apply Qeq_bool_iff in H1, H2. apply Qltb_lt in H.
    rewrite H1, H2 in H. exact (Qlt_irrefl _ H).
  - rewrite (datetime_eqb_not_lt _ _ _ H1 H2) in H. discriminate.
Qed.

(** ** The sort of the engine *)

(** C6. The sort of the engine is stable, whatever field and direction
    are requested: the records whose sort key compares equal to a given
    key [k] stand in the sorted output in the order they had in the
    filtered sequence.  [requested_reverse] is true for a descending and
    false for an ascending request, and the statement covers both. *)
Theorem sort_stage_stable (filtered out : list record) (sort_options : record)
    (k : sortkey) :
  sort_stage filtered sort_options = Ok out ->
  List.filter (same_key sort_options k) out
  = List.filter (same_key sort_options k) filtered.
Proof.
  unfold sort_stage, timsort, same_key.
  destruct (truthy (get sort_options "field")); intros E.
  - eapply sorted_stable; [|exact E].
    intros a b Ha Hb. eapply key_eq_not_lt; eauto.
  - injection E as <-. reflexivity.
Qed.

Lemma sort_stage_perm (filtered out : list record) (sort_options : record) :
  sort_stage filtered sort_options = Ok out -> Permutation filtered out.
Proof.
  unfold sort_stage, timsort.
  destruct (truthy (get sort_options "field")); intros E.
  - eapply sorted_perm; eauto.
  - injection E as <-. reflexivity.
Qed.


(** ** The filters select records of the input *)

Lemma range_loop_incl (field : string) (data : list record) :
  forall (min_val max_val : value) (out : list record),
    range_loop field min_val max_val data = Ok out -> incl out data.
Proof.
  induction data as [|item rest IH]; simpl; intros min_val max_val out E.
  - injection E as <-. apply incl_refl.
  - destruct (is_none (get item field)).
    { apply incl_tl. eauto. }
    destruct (convert_dates (get item field) min_val max_val) as [v' lo hi|lo hi].
    2: { apply incl_tl. eauto. }
    inv_bind E. destruct x.
    { apply incl_tl. eauto. }
    inv_bind E. destruct x.
    { apply incl_tl. eauto. }
    inv_bind E. injection E as <-.
    apply incl_cons; [left; reflexivity | apply incl_tl; eauto].
Qed.

Lemma range_search_incl (data out : list record) (field : string)
    (min_val max_val : value) :
  range_search data field min_val max_val = Ok out -> incl out data.
Proof. apply range_loop_incl. Qed.

Lemma filterM_incl {A : Type} (f : A -> result bool) (l out : list A) :
  filterM f l = Ok out -> incl out l.
Proof.
  revert out; induction l as [|x xs IH]; simpl; intros out E.
  - injection E as <-. apply incl_refl.
  - inv_bind E. inv_bind E. injection E as <-.
    destruct x0; [apply incl_cons; [left; reflexivity|] |]; apply incl_tl; eauto.
Qed.

Lemma keyword_search_incl `{PyBuiltins} (data out : list record) (keyword : value)
    (fields : list string) :
  keyword_search data keyword fields = Ok out -> incl out data.
Proof.
  unfold keyword_search. intros E. inv_bind E. injection E as <-.
  apply incl_filter.
Qed.

Lemma filter_stage_incl `{PyBuiltins} (data out : list record) (filters : record) :
  filter_stage data filters = Ok out -> incl out data.
Proof.
  unfold filter_stage. intros E.
  inv_bind E. rename x into d1.
  assert (incl d1 data) as I1.
  { destruct (truthy (get filters "keyword"));
      [eapply keyword_search_incl; eauto | injection Hx as <-; apply incl_refl]. }
  inv_bind E. rename x into d2.
  assert (incl d2 d1) as I2.
  { destruct (truthy (get filters "vendor"));
      [eapply filterM_incl; eauto | injection Hx0 as <-; apply incl_refl]. }
  set (d3 := if truthy (get filters "category") then _ else d2) in *.
  assert (incl d3 d2) as I3.
  { subst d3. destruct (truthy (get filters "category"));
      [apply incl_filter | apply incl_refl]. }
  inv_bind E. rename x into d4.
  assert (incl d4 d3) as I4.
  { destruct (truthy (get filters "date_from") || truthy (get filters "date_to"));
      [eapply range_search_incl; eauto | injection Hx1 as <-; apply incl_refl]. }
  assert (incl out d4) as I5.
  { destruct (negb (is_none (get filters "amount_min"))
              || negb (is_none (get filters "amount_max")));
      [eapply range_search_incl; eauto | injection E as <-; apply incl_refl]. }
  repeat (eapply incl_tran; [eassumption|]). apply incl_refl.
Qed.

(** C5. Whatever the records and the request, the bundle that
    [execute_query] returns has [count] equal to the length of [data],
    and every record of [data] is a record of the input. *)
Theorem execute_query_count_subset `{PyBuiltins} (input : list record)
    (filters sort_options : record) (b : bundle) :
  execute_query input filters sort_options = Ok b ->
  count b = List.length (data b) /\ (forall r, In r (data b) -> In r input).
Proof.
  unfold execute_query. intros E.
  inv_bind E. rename x into filtered, Hx into Hf.
  inv_bind E. rename x into ordered, Hx into Hs.
  do 5 inv_bind E. injection E as <-. simpl. split; [reflexivity|].
  intros r Hr. eapply filter_stage_incl; [exact Hf|].
  eapply Permutation_in; [|exact Hr].
  symmetry. eapply sort_stage_perm; eauto.
Qed.

(** ** Quicksort *)




Section QuicksortFacts.
Context {A K : Type}.
Variables ltb eqb gtb : K -> K -> bool.
Variable key_func : A -> K.
Hypothesis order : key_order ltb eqb gtb.

Lemma ko_asym (a b : K) : ltb a b = true -> ltb b a = false.
Proof using order.
  intros H. apply not_true_iff_false. intros H'.
  pose proof (ko_trans _ _ _ order _ _ _ H H') as Hc.
  rewrite (ko_irrefl _ _ _ order) in Hc. discriminate.
Qed.


Lemma quicksort_fuel_S (fuel : nat) (arr : list A) :
  quicksort_fuel ltb eqb gtb key_func (S fuel) arr
  = if (List.length arr <=? 1)%nat then Ok arr
    else
      match nth_error arr (List.length arr / 2)%nat with
      | None => Raise IndexError
      | Some pivot =>
          let pivot_key := key_func pivot in
          let* l := quicksort_fuel ltb eqb gtb key_func fuel
                      (List.filter (fun x => ltb (key_func x) pivot_key) arr) in
          let* r := quicksort_fuel ltb eqb gtb key_func fuel
                      (List.filter (fun x => gtb (key_func x) pivot_key) arr) in
          Ok (l ++ List.filter (fun x => eqb (key_func x) pivot_key) arr ++ r)
      end.
Proof. reflexivity. Qed.


End QuicksortFacts.

Section QuicksortObjectsFacts.
Context {A K : Type}.
Variables ltb eqb gtb : K -> K -> bool.
Variable key_func : A -> K.

Lemma deref_old (h ext : store) (ref : nat) :
  (ref < List.length h)%nat -> deref (A := A) (h ++ ext) ref = deref h ref.
Proof. intros H. unfold deref. apply app_nth1, H. Qed.


Lemma quicksort_obj_S (fuel : nat) (h : store) (arr : nat) :
  quicksort_obj ltb eqb gtb key_func (S fuel) h arr
  = if (List.length (deref h arr) <=? 1)%nat then Ok (h, arr)
    else
      match nth_error (deref h arr) (List.length (deref h arr) / 2)%nat with
      | None => Raise IndexError
      | Some pivot =>
          let pivot_key := key_func pivot in
          let h1 := h ++ [List.filter (fun x => ltb (key_func x) pivot_key) (deref h arr)] in
          let h2 := h1 ++ [List.filter (fun x => eqb (key_func x) pivot_key) (deref h1 arr)] in
          let h3 := h2 ++ [List.filter (fun x => gtb (key_func x) pivot_key) (deref h2 arr)] in
          let* sl := quicksort_obj ltb eqb gtb key_func fuel h3 (List.length h) in
          let* sr := quicksort_obj ltb eqb gtb key_func fuel (fst sl) (List.length h2) in
          let h5 := fst sr in
          let h6 := h5 ++ [deref h5 (snd sl) ++ deref h5 (List.length h1)] in
          Ok (h6 ++ [deref h6 (List.length h5) ++ deref h6 (snd sr)], List.length h6)
      end.
Proof. reflexivity. Qed.

End QuicksortObjectsFacts.


(** ** Moving average *)





(** What [moving_average] computes when the window fits. *)
Lemma moving_average_values (data : list Q) (w : Z) :
  1 <= w -> w <= Z.of_nat (List.length data) ->
  moving_average data w
  = Ok (map (fun i : Z => round2 (Qsum (py_slice data i (i + w)) / inject_Z w))
          (range (Z.of_nat (List.length data) - w + 1))).
Proof.
  intros Hw Hlen. unfold moving_average.
  destruct (Z.ltb_spec (Z.of_nat (List.length data)) w); [lia|].
  apply mapM_pure. intros i _.
  destruct (Z.eqb_spec w 0); [lia | reflexivity].
Qed.

Lemma moving_average_total (data : list Q) (w : Z) :
  1 <= w -> exists out, moving_average data w = Ok out.
Proof.
  intros Hw.
  destruct (Z.lt_ge_cases (Z.of_nat (List.length data)) w) as [H|H].
  - exists data. unfold moving_average.
    destruct (Z.ltb_spec (Z.of_nat (List.length data)) w); [reflexivity | lia].
  - rewrite moving_average_values by assumption. eauto.
Qed.


(** ** Trends *)


(** ** Basic statistics *)

Lemma count_add_nonempty (x : Q) (c : list (Q * nat)) : count_add x c <> [].
Proof. destruct c as [|[y n] c]; simpl; [|destruct (Qeq_bool y x)]; discriminate. Qed.

Lemma Counter_nonempty (data : list Q) : data <> [] -> Counter data <> [].
Proof.
  unfold Counter. intros Hd.
  assert (H : forall l c, c <> [] -> fold_left (fun c x => count_add x c) l c <> []).
  { induction l as [|x xs IH]; simpl; intros c Hc; [exact Hc|].
    apply IH, count_add_nonempty. }
  destruct data as [|x xs]; [contradiction|]. simpl.
  apply H. discriminate.
Qed.

(** [statistics.mode] finds a mode in all data but the empty one, so the
    fallback to the median is never taken by [calculate_basic_stats]. *)
Lemma statistics_mode_total (data : list Q) :
  data <> [] -> exists m, statistics_mode data = Ok m.
Proof.
  intros Hd. unfold statistics_mode.
  pose proof (Counter_nonempty data Hd).
  destruct (Counter data); [contradiction | eauto].
Qed.

(** C3 on the amounts [[10, 20, 30]]: the median is 20, and the mode
    that is reported is 10, the first of the three values. *)
Theorem basic_stats_mode_of_distinct :
  exists s,
    calculate_basic_stats [10; 20; 30]%Q = Ok s
    /\ (stats_median s == 20)%Q
    /\ (stats_mode s == 10)%Q
    /\ ~ (stats_mode s == stats_median s)%Q.
Proof.
  eexists. split; [vm_compute; reflexivity|].
  repeat split; try reflexivity. intros H. discriminate H.
Qed.

(** ** Grouped aggregation *)













Lemma find_group_key (k : value) (acc : nat * Q) (d : groups) :
  find_group k d = Some acc -> exists k', In (k', acc) d /\ py_eq k' k = true.
Proof.
  induction d as [|[k' acc'] d IH]; simpl; [discriminate|].
  destruct (py_eq k' k) eqn:Hk.
  - intros [= ->]. eauto.
  - intros H. destruct (IH H) as (k0 & Hin & Hk0). eauto.
Qed.




Lemma group_loop_total `{PyBuiltins} (field : string) (dflt : value)
    (receipts : list record) (amts : list Q) :
  mapM amount_of receipts = Ok amts ->
  forall d, exists d', group_loop field dflt receipts d = Ok d'.
Proof.
  revert amts; induction receipts as [|receipt rest IH]; simpl; intros amts E d.
  - eauto.
  - inv_bind E. inv_bind E. unfold amount_of in Hx. rewrite Hx. simpl. eauto.
Qed.


Lemma StronglySorted_weaken {A : Type} (R R' : A -> A -> Prop) (l : list A) :
  (forall a b, R a b -> R' a b) -> StronglySorted R l -> StronglySorted R' l.
Proof.
  intros HR. induction 1 as [|x xs _ IH Hx]; constructor; [exact IH|].
  eapply Forall_impl; [|exact Hx]. auto.
Qed.

Lemma float_lt_asym (a b : Q) : float_lt a b = Ok true -> float_lt b a = Ok false.
Proof.
  unfold float_lt. intros H%Ok_inj. f_equal.
  apply Qltb_lt in H. apply Qltb_ge, Qlt_le_weak, H.
Qed.

Lemma float_le_trans (a b c : Q) :
  float_lt b a = Ok false -> float_lt c b = Ok false -> float_lt c a = Ok false.
Proof.
  unfold float_lt. intros H1%Ok_inj H2%Ok_inj. f_equal.
  apply Qltb_ge in H1, H2. apply Qltb_ge. eapply Qle_trans; eauto.
Qed.



(** ** The date filter *)

Lemma malformed_bound_convert (v : value) :
  malformed_bound v -> convert_bound v = None.
Proof.
  intros (s & -> & Hs & Hp). unfold convert_bound. simpl.
  destruct (String.eqb_spec s ""); [contradiction|]. simpl. rewrite Hp. reflexivity.
Qed.

(** With a malformed lower bound every shaped date is skipped, and the
    bounds stay as they are. *)
Lemma range_loop_malformed_min (data : list record) (min_val max_val : value) :
  malformed_bound min_val -> Forall shaped_date data ->
  range_loop "date" min_val max_val data = Ok [].
Proof.
  intros Hmin. induction 1 as [|item rest Hitem _ IH]; simpl; [reflexivity|].
  destruct Hitem as [-> | (s & -> & Hs)]; simpl; [exact IH|].
  rewrite Hs. destruct (strptime s); [|exact IH].
  rewrite (malformed_bound_convert _ Hmin). exact IH.
Qed.

(** With a malformed upper bound too; the lower bound may turn into a
    datetime on the way. *)
Lemma range_loop_malformed_max (data : list record) (max_val : value) :
  malformed_bound max_val -> Forall shaped_date data ->
  forall min_val, range_loop "date" min_val max_val data = Ok [].
Proof.
  intros Hmax. induction 1 as [|item rest Hitem _ IH]; simpl; intros min_val;
    [reflexivity|].
  destruct Hitem as [-> | (s & -> & Hs)]; simpl; [apply IH|].
  rewrite Hs. destruct (strptime s); [|apply IH].
  destruct (convert_bound min_val); [|apply IH].
  rewrite (malformed_bound_convert _ Hmax). apply IH.
Qed.

(** C1, as the code has it.  On receipts whose dates are absent or have
    the shape of a date, a date filter one of whose bounds is a
    malformed date raises nothing: the failure to read the bound is
    caught for every receipt, and [range_search] returns the empty list,
    the result of a search without matches. *)
Theorem range_search_malformed_bound (data : list record) (date_from date_to : value) :
  malformed_bound date_from \/ malformed_bound date_to ->
  Forall shaped_date data ->
  range_search data "date" date_from date_to = Ok [].
Proof.
  intros [H|H] Hd; unfold range_search.
  - apply range_loop_malformed_min; assumption.
  - apply range_loop_malformed_max; assumption.
Qed.

(** The part of the exclusion that the loop does perform: a record that
    is returned has a value in the field, and if that value has the shape
    of a date it is one. *)
Lemma range_loop_found (field : string) (data : list record) :
  forall (min_val max_val : value) (out : list record),
    range_loop field min_val max_val data = Ok out ->
    Forall (fun r => get r field <> VNone
                     /\ forall s, get r field = VStr s -> date_shape s = true ->
                                   strptime s <> None) out.
Proof.
  induction data as [|item rest IH]; simpl; intros min_val max_val out E.
  - injection E as <-. constructor.
  - destruct (get item field) as [|s|q|d] eqn:Hv; simpl in E; try (eapply IH; eassumption).
    + unfold convert_dates in E.
      destruct (date_shape s) eqn:Hs.
      * destruct (strptime s) as [dt|] eqn:Hp; [|eapply IH; eassumption].
        destruct (convert_bound min_val); [|eapply IH; eassumption].
        destruct (convert_bound max_val); [|eapply IH; eassumption].
        inv_bind E. destruct x; [eapply IH; eassumption|].
        inv_bind E. destruct x; [eapply IH; eassumption|].
        inv_bind E. injection E as <-. constructor; [|eapply IH; eassumption].
        rewrite Hv. split; [discriminate|]. intros s' [= <-] _. congruence.
      * inv_bind E. destruct x; [eapply IH; eassumption|].
        inv_bind E. destruct x; [eapply IH; eassumption|].
        inv_bind E. injection E as <-. constructor; [|eapply IH; eassumption].
        rewrite Hv. split; [discriminate|]. intros s' [= <-] Hs'. congruence.
    + inv_bind E. destruct x; [eapply IH; eassumption|].
      inv_bind E. destruct x; [eapply IH; eassumption|].
      inv_bind E. injection E as <-. constructor; [|eapply IH; eassumption].
      rewrite Hv. split; discriminate.
    + inv_bind E. destruct x; [eapply IH; eassumption|].
      inv_bind E. destruct x; [eapply IH; eassumption|].
      inv_bind E. injection E as <-. constructor; [|eapply IH; eassumption].
      rewrite Hv. split; discriminate.
Qed.

(** C4 on two inputs with the well-formed bound [date_from =
    "2024-01-01"]: a receipt dated ["2024/01/05"], which is no
    [YYYY-MM-DD] date, is returned; and the same receipt after one dated
    ["2024-01-05"] makes the search raise [TypeError]. *)
Theorem range_search_unparsable_date :
  let slashed : record := {[ "date" := VStr "2024/01/05" ]} in
  let dashed : record := {[ "date" := VStr "2024-01-05" ]} in
  strptime "2024-01-01" <> None
  /\ strptime "2024/01/05" = None
  /\ range_search [slashed] "date" (VStr "2024-01-01") VNone = Ok [slashed]
  /\ range_search [dashed; slashed] "date" (VStr "2024-01-01") VNone
     = Raise TypeError.
Proof.
  repeat split; try (vm_compute; reflexivity). vm_compute. discriminate.
Qed.

(** * Closed instances *)

(** ** Inputs on which a claim of the specification fails *)

(** C1: a malformed [date_from] is not reported; the search and the
    whole query return as if nothing matched. *)
Lemma malformed_date_from_not_reported :
  let receipt : record := {[ "date" := VStr "2024-01-05" ]} in
  let filters : record := {[ "date_from" := VStr "not-a-date" ]} in
  malformed_bound (VStr "not-a-date")
  /\ range_search [receipt] "date" (VStr "not-a-date") VNone = Ok []
  /\ ~ raises (range_search [receipt] "date" (VStr "not-a-date") VNone)
  /\ (exists b, execute_query (H := sample_runtime) [receipt] filters ∅ = Ok b
                /\ data b = [] /\ count b = 0%nat)
  /\ ~ raises (execute_query (H := sample_runtime) [receipt] filters ∅).
Proof.
  intros receipt filters.
  assert (E : exists b, execute_query (H := sample_runtime) [receipt] filters ∅ = Ok b
                        /\ data b = [] /\ count b = 0%nat).
  { eexists. split; [vm_compute; reflexivity|]. split; reflexivity. }
  split; [|split; [|split; [|split]]].
  - exists "not-a-date". split; [reflexivity|].
    split; [discriminate | vm_compute; reflexivity].
  - vm_compute. reflexivity.
  - intros [e He]. vm_compute in He. discriminate.
  - exact E.
  - destruct E as (b & -> & _). intros [e He]. discriminate.
Qed.




(** ** Instances of the theorems above *)

Lemma range_search_malformed_bound_witness :
  let r1 : record := {[ "date" := VStr "2024-01-05" ]} in
  let r2 : record := {[ "vendor" := VStr "Shell" ]} in
  range_search [r1; r2] "date" (VStr "2024-01-01") (VStr "2024-31-12") = Ok [].
Proof.
  intros r1 r2. apply range_search_malformed_bound.
  - right. exists "2024-31-12". split; [reflexivity|].
    split; [discriminate | vm_compute; reflexivity].
  - apply Forall_cons; [|apply Forall_cons; [|apply Forall_nil]].
    + right. exists "2024-01-05". split; vm_compute; reflexivity.
    + left. vm_compute. reflexivity.
Defined.


Lemma execute_query_count_subset_witness :
  let receipt (v : string) (a : Q) (d : string) : record :=
    {[ "vendor" := VStr v; "amount" := VNum a; "date" := VStr d ]} in
  let input := [receipt "Costco" 50 "2024-01-05"; receipt "Costco" 30 "2024-02-10";
                receipt "Shell" 20 "2024-02-15"]%Q in
  let filters : record := {[ "vendor" := VStr "cost" ]} in
  let sort_options : record := {[ "field" := VStr "amount"; "direction" := VStr "asc" ]} in
  exists b,
    execute_query (H := sample_runtime) input filters sort_options = Ok b
    /\ count b = List.length (data b)
    /\ (forall r, In r (data b) -> In r input).
Proof.
  intros receipt input filters sort_options.
  assert (E : exists b,
             execute_query (H := sample_runtime) input filters sort_options = Ok b).
  { eexists. vm_compute. reflexivity. }
  destruct E as [b E]. exists b. split; [exact E|].
  exact (execute_query_count_subset input filters sort_options b E).
Defined.

Lemma sort_stage_stable_witness :
  let receipt (i a : Q) : record := {[ "id" := VNum i; "amount" := VNum a ]} in
  let filtered := [receipt 1 30; receipt 2 50; receipt 3 30; receipt 4 50]%Q in
  let descending : record := {[ "field" := VStr "amount" ]} in
  let ascending : record := {[ "field" := VStr "amount"; "direction" := VStr "asc" ]} in
  let k := KVal (VNum 30) in
  List.filter (same_key descending k)
    [receipt 2 50; receipt 4 50; receipt 1 30; receipt 3 30]%Q
  = List.filter (same_key descending k) filtered
  /\ List.filter (same_key ascending k)
       [receipt 1 30; receipt 3 30; receipt 2 50; receipt 4 50]%Q
     = List.filter (same_key ascending k) filtered.
Proof.
  intros receipt filtered descending ascending k. split.
  - apply sort_stage_stable. vm_compute. reflexivity.
  - apply sort_stage_stable. vm_compute. reflexivity.
Defined.


Lemma Z_key_order : key_order Z.ltb Z.eqb Z.gtb.
Proof.
  split; intros.
  - apply Z.gtb_ltb.
  - destruct (Z.eqb_spec a b), (Z.ltb_spec a b), (Z.ltb_spec b a); simpl; lia.
  - apply Z.ltb_irrefl.
  - apply Z.ltb_lt. apply Z.ltb_lt in H, H0. lia.
  - apply Z.ltb_ge. apply Z.ltb_ge in H, H0. lia.
Defined.




(** * Further properties of the engine *)

(** ** Range searches that behave *)

(** X1. On receipts whose field is absent, [None] or a number,
    [range_search] with numeric bounds returns, in the order of the
    input, exactly the receipts that hold a number between the bounds,
    both bounds included; a receipt without the field is left out even
    when no bound excludes it. *)
Theorem range_search_numbers (data : list record) (field : string)
    (lo hi : option Q) :
  Forall (numeric_field field) data ->
  range_search data field (number_bound lo) (number_bound hi)
  = Ok (List.filter (number_within field lo hi) data).
Proof.
  unfold range_search. induction 1 as [|item rest Hitem _ IH]; simpl; [reflexivity|].
  unfold number_within at 1.
  destruct Hitem as [-> | (a & ->)]; simpl; [exact IH|].
  assert (Hlo : outside py_lt (VNum a) (number_bound lo)
                = Ok (negb match lo with Some l => Qle_bool l a | None => true end)).
  { destruct lo; simpl; [unfold Qltb|]; reflexivity. }
  assert (Hhi : outside py_gt (VNum a) (number_bound hi)
                = Ok (negb match hi with Some h => Qle_bool a h | None => true end)).
  { destruct hi; simpl; [unfold Qltb|]; reflexivity. }
  rewrite Hlo. simpl.
  destruct (match lo with Some l => Qle_bool l a | None => true end); simpl; [|exact IH].
  rewrite Hhi. simpl.
  destruct (match hi with Some h => Qle_bool a h | None => true end); simpl; [|exact IH].
  rewrite IH. reflexivity.
Qed.

Lemma strptime_nonempty (s : string) (d : datetime) :
  strptime s = Some d -> truthy (VStr s) = true.
Proof. destruct s; [discriminate | reflexivity]. Qed.

Lemma convert_bound_state (b : value) (d : option datetime) :
  bound_state b d ->
  exists b', convert_bound b = Some b'
             /\ b' = match d with Some dt => VDate dt | None => VNone end.
Proof.
  intros [[[-> ->] | (s & dt & -> & Hs & ->)] | (dt & -> & ->)]; unfold convert_bound.
  - simpl. eauto.
  - rewrite (strptime_nonempty _ _ Hs), Hs. eauto.
  - simpl. eauto.
Qed.

Lemma range_loop_dates (data : list record) (lo hi : option datetime) :
  Forall iso_date data ->
  forall min_val max_val,
    bound_state min_val lo -> bound_state max_val hi ->
    range_loop "date" min_val max_val data = Ok (List.filter (date_within lo hi) data).
Proof.
  induction 1 as [|item rest Hitem _ IH]; simpl; intros min_val max_val Hmin Hmax;
    [reflexivity|].
  unfold date_within at 1.
  destruct Hitem as [-> | (s & d & -> & Hshape & Hd)]; simpl; [apply IH; assumption|].
  rewrite Hshape, Hd.
  destruct (convert_bound_state _ _ Hmin) as (min' & -> & Emin).
  destruct (convert_bound_state _ _ Hmax) as (max' & -> & Emax).
  assert (Smin : bound_state min' lo).
  { subst min'. destruct lo; [right; eauto | left; left; auto]. }
  assert (Smax : bound_state max' hi).
  { subst max'. destruct hi; [right; eauto | left; left; auto]. }
  assert (Hlo : outside py_lt (VDate d) min'
                = Ok (negb match lo with Some l => negb (datetime_ltb d l) | None => true end)).
  { subst min'. destruct lo; simpl; [rewrite negb_involutive|]; reflexivity. }
  assert (Hhi : outside py_gt (VDate d) max'
                = Ok (negb match hi with Some h => negb (datetime_ltb h d) | None => true end)).
  { subst max'. destruct hi; simpl; [rewrite negb_involutive|]; reflexivity. }
  rewrite Hlo. simpl.
  destruct (match lo with Some l => negb (datetime_ltb d l) | None => true end); simpl;
    [|apply IH; assumption].
  rewrite Hhi. simpl.
  destruct (match hi with Some h => negb (datetime_ltb h d) | None => true end); simpl;
    [|apply IH; assumption].
  rewrite (IH _ _ Smin Smax). reflexivity.
Qed.

(** X2. When every receipt has no date or a date [YYYY-MM-DD], and each
    bound is absent or a string that [strptime] reads, the date filter
    returns, in the order of the input, exactly the receipts whose date
    lies between the bounds, both bounds included; receipts without a
    date are left out. *)
Theorem range_search_dates (data : list record) (date_from date_to : value)
    (lo hi : option datetime) :
  Forall iso_date data ->
  date_bound date_from lo -> date_bound date_to hi ->
  range_search data "date" date_from date_to
  = Ok (List.filter (date_within lo hi) data).
Proof.
  intros Hd Hlo Hhi. unfold range_search.
  apply range_loop_dates; [exact Hd | left; exact Hlo | left; exact Hhi].
Qed.

(** ** What the sort of the engine returns, and when it raises *)

Lemma mapM_In {A B : Type} (f : A -> result B) (l : list A) (ys : list B) (a : A) :
  mapM f l = Ok ys -> In a l -> exists k, f a = Ok k /\ In (k, a) (combine ys l).
Proof.
  revert ys; induction l as [|x xs IH]; simpl; intros ys E Ha; [destruct Ha|].
  apply bind_ok in E as (k0 & Hk0 & E). apply bind_ok in E as (ks & Hks & E).
  injection E as <-. destruct Ha as [->|Ha].
  - exists k0. split; [exact Hk0 | left; reflexivity].
  - destruct (IH _ Hks Ha) as (k & Hk & Hin). exists k. split; [exact Hk | right; exact Hin].
Qed.

Lemma mapM_raise {A B : Type} (f : A -> result B) (l : list A) (e e0 : exn) :
  (forall x e', f x = Raise e' -> e' = e0) -> mapM f l = Raise e -> e = e0.
Proof.
  intros Hf. induction l as [|x xs IH]; simpl; [discriminate|].
  destruct (f x) eqn:Hx; simpl.
  - destruct (mapM f xs); simpl; [discriminate|]. intros [= <-]. apply IH. reflexivity.
  - intros [= <-]. eapply Hf; eauto.
Qed.

Section SortedKinds.
Context {A K T : Type}.
Variable lt : K -> K -> result bool.
Variable kind : K -> T.
Variable e0 : exn.
Hypothesis lt_kind : forall a b t, lt a b = Ok t -> kind a = kind b.
Hypothesis lt_raise : forall a b e, lt a b = Raise e -> e = e0.

Lemma stable_sort_kind (l l' : list (K * A)) :
  stable_sort lt l = Ok l' ->
  forall d1 d2, In d1 l -> In d2 l -> kind (fst d1) = kind (fst d2).
Proof using lt_kind.
  revert l'; induction l as [|x xs IH]; simpl; intros l' E d1 d2 H1 H2; [destruct H1|].
  apply bind_ok in E as (xs' & Hs & E).
  assert (Hx : forall d, In d xs -> kind (fst d) = kind (fst x)).
  { intros d Hd. pose proof (stable_sort_perm _ _ _ Hs) as P.
    destruct xs' as [|y ys].
    - apply Permutation_sym, Permutation_nil in P. subst. destruct Hd.
    - simpl in E. apply bind_ok in E as (t & Ht & E). apply lt_kind in Ht.
      rewrite <- Ht. eapply IH; eauto.
      eapply Permutation_in; [symmetry; exact P | left; reflexivity]. }
  destruct H1 as [<-|H1], H2 as [<-|H2]; auto.
  - symmetry. auto.
  - eapply IH; eauto.
Qed.

Lemma insert_raise (x : K * A) (l : list (K * A)) (e : exn) :
  insert lt x l = Raise e -> e = e0.
Proof using lt_raise.
  induction l as [|y ys IH]; simpl; [discriminate|].
  destruct (lt (fst y) (fst x)) as [[]|e'] eqn:Hc; simpl.
  - destruct (insert lt x ys); simpl; [discriminate|]. intros [= <-]. apply IH. reflexivity.
  - discriminate.
  - intros [= <-]. eapply lt_raise; eauto.
Qed.

Lemma stable_sort_raise (l : list (K * A)) (e : exn) :
  stable_sort lt l = Raise e -> e = e0.
Proof using lt_raise.
  induction l as [|x xs IH]; simpl; [discriminate|].
  destruct (stable_sort lt xs) as [xs'|e'] eqn:Hs; simpl.
  - apply insert_raise.
  - intros [= <-]. apply IH. reflexivity.
Qed.

Lemma sorted_kind (data out : list A) (key_func : A -> result K) (reverse : bool) :
  sorted lt data key_func reverse = Ok out ->
  forall a b, In a data -> In b data ->
    exists ka kb, key_func a = Ok ka /\ key_func b = Ok kb /\ kind ka = kind kb.
Proof using lt_kind.
  unfold sorted. intros E a b Ha Hb. apply bind_ok in E as (keys & Hkeys & E).
  destruct (mapM_In _ _ _ _ Hkeys Ha) as (ka & Ka & Ia).
  destruct (mapM_In _ _ _ _ Hkeys Hb) as (kb & Kb & Ib).
  exists ka, kb. split; [exact Ka|]. split; [exact Kb|].
  destruct reverse; apply bind_ok in E as (srt & Hsrt & E).
  - apply (stable_sort_kind _ _ Hsrt (ka, a) (kb, b)); apply -> in_rev; assumption.
  - apply (stable_sort_kind _ _ Hsrt (ka, a) (kb, b)); assumption.
Qed.

Lemma sorted_raise (data : list A) (key_func : A -> result K) (reverse : bool)
    (e : exn) :
  (forall x e', key_func x = Raise e' -> e' = e0) ->
  sorted lt data key_func reverse = Raise e -> e = e0.
Proof using lt_raise.
  intros Hk. unfold sorted.
  destruct (mapM key_func data) as [keys|e'] eqn:Hm; simpl.
  - destruct reverse.
    + destruct (stable_sort lt (rev (combine keys data))) eqn:Hs; simpl; [discriminate|].
      intros [= <-]. eapply stable_sort_raise; eauto.
    + destruct (stable_sort lt (combine keys data)) eqn:Hs; simpl; [discriminate|].
      intros [= <-]. eapply stable_sort_raise; eauto.
  - intros [= <-]. eapply mapM_raise; eauto.
Qed.
End SortedKinds.

Lemma key_lt_kind (a b : sortkey) (t : bool) :
  key_lt a b = Ok t -> kind_of a = kind_of b.
Proof. destruct a as [[]|], b as [[]|]; simpl; try discriminate; reflexivity. Qed.

Lemma key_lt_raise (a b : sortkey) (e : exn) : key_lt a b = Raise e -> e = TypeError.
Proof.
  destruct a as [[]|], b as [[]|]; simpl; try discriminate; intros [= <-]; reflexivity.
Qed.

Lemma sort_key_raise (field : value) (reverse : bool) (r : record) (e : exn) :
  sort_key field reverse r = Raise e -> e = TypeError.
Proof.
  unfold sort_key.
  destruct (py_eq field (VStr "date") && truthy (get_by r field)).
  - destruct (get_by r field); try (intros [= <-]; reflexivity).
    destruct (strptime s); discriminate.
  - destruct (truthy (get_by r field)); discriminate.
Qed.

(** X3. When a sort is requested and the engine's sort returns, its
    output is a permutation of the filtered records in the order of
    their sort keys: no record stands before one of smaller key in an
    ascending sort, nor before one of greater key in a descending
    sort (the direction is descending unless it is given and differs from
    ['desc']). *)
Theorem sort_stage_ordered (filtered out : list record) (sort_options : record) :
  truthy (get sort_options "field") = true ->
  sort_stage filtered sort_options = Ok out ->
  Permutation filtered out
  /\ (requested_reverse sort_options = false ->
      StronglySorted (ascending key_lt (requested_key sort_options)) out)
  /\ (requested_reverse sort_options = true ->
      StronglySorted (descending key_lt (requested_key sort_options)) out).
Proof.
  intros Hf E. split; [eapply sort_stage_perm; eauto|].
  unfold sort_stage, timsort in E. rewrite Hf in E. unfold requested_key.
  split; intros Hr; rewrite Hr in *.
  - eapply sorted_ascending; eauto using key_lt_asym, key_le_trans.
  - eapply sorted_descending; eauto using key_lt_asym, key_le_trans.
Qed.

Lemma sort_stage_kinds_clash (filtered : list record) (sort_options : record)
    (r1 r2 : record) (k1 k2 : sortkey) :
  truthy (get sort_options "field") = true ->
  In r1 filtered -> In r2 filtered ->
  requested_key sort_options r1 = Ok k1 ->
  requested_key sort_options r2 = Ok k2 ->
  kind_of k1 <> kind_of k2 ->
  sort_stage filtered sort_options = Raise TypeError.
Proof.
  intros Hf H1 H2 K1 K2 Hk. unfold sort_stage, timsort. rewrite Hf.
  unfold requested_key in *.
  destruct (sorted key_lt filtered _ _) as [out|e] eqn:E.
  - exfalso. apply Hk.
    destruct (sorted_kind key_lt kind_of key_lt_kind _ _ _ _ E r1 r2 H1 H2)
      as (ka & kb & Ka & Kb & Hkind).
    congruence.
  - f_equal. eapply (sorted_raise key_lt TypeError key_lt_raise); [|exact E].
    intros x e'. apply sort_key_raise.
Qed.

(** X4. When the engine's sort returns, all the records it sorted have
    keys of one kind (numbers and infinities, or texts, or datetimes);
    and when it raises, it raises [TypeError].  So two records whose keys
    are of two kinds make every sort of them fail, whatever the
    direction. *)
Theorem sort_stage_one_kind (filtered : list record) (sort_options : record) :
  truthy (get sort_options "field") = true ->
  (forall out r1 r2,
      sort_stage filtered sort_options = Ok out ->
      In r1 filtered -> In r2 filtered ->
      exists k1 k2, requested_key sort_options r1 = Ok k1
                    /\ requested_key sort_options r2 = Ok k2
                    /\ kind_of k1 = kind_of k2)
  /\ (forall e, sort_stage filtered sort_options = Raise e -> e = TypeError).
Proof.
  intros Hf. unfold sort_stage, timsort, requested_key. rewrite Hf. split.
  - intros out r1 r2 E H1 H2.
    exact (sorted_kind key_lt kind_of key_lt_kind _ _ _ _ E r1 r2 H1 H2).
  - intros e E. eapply (sorted_raise key_lt TypeError key_lt_raise); [|exact E].
    intros x e'. apply sort_key_raise.
Qed.

(** X5. In particular, sorting by a field that one record holds as a
    non-empty text (a date included) and another record lacks, or holds
    as [None], [''] or [0], raises [TypeError]: the text or the datetime
    does not compare with the infinity that stands for the missing
    value. *)
Theorem sort_stage_text_and_missing (filtered : list record) (sort_options : record)
    (field s : string) (r1 r2 : record) :
  get sort_options "field" = VStr field -> field <> "" ->
  In r1 filtered -> In r2 filtered ->
  get r1 field = VStr s -> s <> "" ->
  truthy (get r2 field) = false ->
  sort_stage filtered sort_options = Raise TypeError.
Proof.
  intros Hf Hne H1 H2 Hs Hs' Hm.
  assert (Ht : truthy (get sort_options "field") = true).
  { rewrite Hf. simpl. destruct (String.eqb_spec field ""); [contradiction | reflexivity]. }
  assert (T1 : truthy (VStr s) = true).
  { simpl. destruct (String.eqb_spec s ""); [contradiction | reflexivity]. }
  assert (K2 : requested_key sort_options r2
               = Ok (KInf (requested_reverse sort_options))).
  { unfold requested_key, sort_key, get_by. rewrite Hf, Hm, andb_false_r. reflexivity. }
  assert (K1 : exists k1, requested_key sort_options r1 = Ok k1
                          /\ kind_of k1 <> KindNumber).
  { unfold requested_key, sort_key, get_by. rewrite Hf, Hs, T1.
    destruct (py_eq (VStr field) (VStr "date")); simpl.
    - destruct (strptime s); eexists; (split; [reflexivity | discriminate]).
    - eexists. split; [reflexivity | discriminate]. }
  destruct K1 as (k1 & K1 & Hk).
  exact (sort_stage_kinds_clash filtered sort_options r1 r2 k1 _ Ht H1 H2 K1 K2 Hk).
Qed.

(** ** More on quicksort *)

Lemma filter_filter_keep {A : Type} (p q : A -> bool) (l : list A) :
  (forall x, p x = true -> q x = true) ->
  List.filter p (List.filter q l) = List.filter p l.
Proof.
  intros H. induction l as [|x xs IH]; simpl; [reflexivity|].
  destruct (q x) eqn:Q; simpl.
  - rewrite IH. reflexivity.
  - destruct (p x) eqn:P; [rewrite (H x P) in Q; discriminate | exact IH].
Qed.

Lemma filter_filter_none {A : Type} (p q : A -> bool) (l : list A) :
  (forall x, p x = true -> q x = false) ->
  List.filter p (List.filter q l) = [].
Proof.
  intros H. induction l as [|x xs IH]; simpl; [reflexivity|].
  destruct (q x) eqn:Q; simpl; [|exact IH].
  destruct (p x) eqn:P; [rewrite (H x P) in Q; discriminate | exact IH].
Qed.

Section QuicksortStable.
Context {A K : Type}.
Variables ltb eqb gtb : K -> K -> bool.
Variable key_func : A -> K.
Hypothesis order : key_order ltb eqb gtb.

Lemma ko_eq_parts (a b : K) :
  eqb a b = true -> ltb a b = false /\ ltb b a = false.
Proof using order.
  rewrite (ko_eq _ _ _ order). intros H%andb_true_iff.
  destruct H as [H1%negb_true_iff H2%negb_true_iff]. auto.
Qed.

Lemma quicksort_fuel_stable (k : K) (fuel : nat) :
  forall arr out,
    quicksort_fuel ltb eqb gtb key_func fuel arr = Ok out ->
    List.filter (fun x => eqb (key_func x) k) out
    = List.filter (fun x => eqb (key_func x) k) arr.
Proof using order.
  induction fuel as [|fuel IH]; intros arr out E.
  - simpl in E. destruct (List.length arr <=? 1)%nat; [|discriminate].
    injection E as <-. reflexivity.
  - rewrite quicksort_fuel_S in E.
    destruct (List.length arr <=? 1)%nat; [injection E as <-; reflexivity|].
    destruct (nth_error arr (List.length arr / 2)) as [pivot|]; [|discriminate].
    cbv zeta in E. apply bind_ok in E as (l & El & E).
    apply bind_ok in E as (r & Er & E). injection E as <-.
    set (pk := key_func pivot) in *.
    rewrite !filter_app, (IH _ _ El), (IH _ _ Er).
    destruct (ltb k pk) eqn:Hlt; [|destruct (ltb pk k) eqn:Hgt].
    + (* the keys equal to [k] are below the pivot *)
      assert (H : forall x, eqb (key_func x) k = true -> ltb (key_func x) pk = true).
      { intros x Hx. apply ko_eq_parts in Hx as [_ Hx].
        destruct (ltb (key_func x) pk) eqn:Hc; [reflexivity|].
        rewrite (ko_negtrans _ _ _ order _ _ _ Hx Hc) in Hlt. discriminate. }
      rewrite filter_filter_keep by exact H.
      rewrite !filter_filter_none; [apply app_nil_r| |].
      * intros x Hx. rewrite (ko_gt _ _ _ order).
        apply (ko_asym _ _ _ order). apply H, Hx.
      * intros x Hx. rewrite (ko_eq _ _ _ order), (H x Hx). reflexivity.
    + (* they are above the pivot *)
      assert (H : forall x, eqb (key_func x) k = true -> ltb pk (key_func x) = true).
      { intros x Hx. apply ko_eq_parts in Hx as [Hx _].
        destruct (ltb pk (key_func x)) eqn:Hc; [reflexivity|].
        rewrite (ko_negtrans _ _ _ order _ _ _ Hc Hx) in Hgt. discriminate. }
      rewrite (filter_filter_keep _ (fun x => gtb (key_func x) pk)).
      2: { intros x Hx. rewrite (ko_gt _ _ _ order). apply H, Hx. }
      rewrite !filter_filter_none; [reflexivity| |].
      * intros x Hx. rewrite (ko_eq _ _ _ order), (H x Hx), andb_false_r. reflexivity.
      * intros x Hx. apply (ko_asym _ _ _ order). apply H, Hx.
    + (* they are the keys equal to the pivot *)
      assert (H : forall x, eqb (key_func x) k = true -> eqb (key_func x) pk = true).
      { intros x Hx. apply ko_eq_parts in Hx as [H1 H2].
        rewrite (ko_eq _ _ _ order).
        rewrite (ko_negtrans _ _ _ order _ _ _ H1 Hlt).
        rewrite (ko_negtrans _ _ _ order _ _ _ Hgt H2). reflexivity. }
      rewrite (filter_filter_keep _ (fun x => eqb (key_func x) pk)) by exact H.
      rewrite !filter_filter_none; [rewrite app_nil_r; reflexivity| |].
      * intros x Hx. rewrite (ko_gt _ _ _ order).
        apply H, ko_eq_parts in Hx. tauto.
      * intros x Hx. apply H, ko_eq_parts in Hx. tauto.
Qed.
End QuicksortStable.

(** X6. [quicksort] is stable: for keys ordered by their comparisons,
    the elements whose key is equal to any given key stand in the result
    in the order they had in the input. *)
Theorem quicksort_stable {A K : Type} (ltb eqb gtb : K -> K -> bool)
    (key_func : A -> K) (arr out : list A) (k : K) :
  key_order ltb eqb gtb ->
  quicksort ltb eqb gtb key_func arr = Ok out ->
  List.filter (fun x => eqb (key_func x) k) out
  = List.filter (fun x => eqb (key_func x) k) arr.
Proof.
  intros order E. eapply quicksort_fuel_stable; eauto.
Qed.

Section QuicksortObjectsMore.
Context {A K : Type}.
Variables ltb eqb gtb : K -> K -> bool.
Variable key_func : A -> K.

(** Whatever the comparisons do, a call that returns has only added
    objects to the store; it returns its argument when that has at most
    one element, and an object that it has made otherwise. *)
Lemma quicksort_obj_grows (fuel : nat) :
  forall (h h' : store) (arr out : nat),
    quicksort_obj ltb eqb gtb key_func fuel h arr = Ok (h', out) ->
    exists ext,
      h' = h ++ ext
      /\ ((List.length (deref h arr) <= 1)%nat -> ext = [] /\ out = arr)
      /\ ((1 < List.length (deref h arr))%nat ->
          (List.length h <= out < List.length h')%nat).
Proof.
  induction fuel as [|fuel IH]; intros h h' arr out E.
  - simpl in E. destruct (Nat.leb_spec (List.length (deref h arr)) 1); [|discriminate].
    injection E as <- <-. exists []. rewrite app_nil_r. repeat split; lia.
  - rewrite quicksort_obj_S in E.
    destruct (Nat.leb_spec (List.length (deref h arr)) 1).
    { injection E as <- <-. exists []. rewrite app_nil_r. repeat split; lia. }
    destruct (nth_error (deref h arr) (List.length (deref h arr) / 2)) as [pivot|];
      [|discriminate].
    cbv zeta in E. apply bind_ok in E as ([h4 lout] & El & E).
    apply bind_ok in E as ([h5 rout] & Er & E). cbn [fst snd] in *.
    injection E as <- <-.
    destruct (IH _ _ _ _ El) as (e1 & -> & _).
    destruct (IH _ _ _ _ Er) as (e2 & -> & _).
    eexists. split; [rewrite <- !app_assoc; reflexivity|].
    split; [lia|]. intros _. rewrite !length_app. simpl. lia.
Qed.
End QuicksortObjectsMore.

(** X7. Whatever the key function and the comparisons, a call of
    [quicksort] that returns has changed no list that existed before it;
    the list it returns is the very object it was given when that holds
    at most one element (nothing is copied), and an object made
    by the call otherwise. *)
Theorem quicksort_result_object {A K : Type} (ltb eqb gtb : K -> K -> bool)
    (key_func : A -> K) (fuel : nat) (h h' : store) (arr out : nat) :
  quicksort_obj ltb eqb gtb key_func fuel h arr = Ok (h', out) ->
  (forall ref, (ref < List.length h)%nat -> deref h' ref = deref h ref)
  /\ ((List.length (deref h arr) <= 1)%nat -> h' = h /\ out = arr)
  /\ ((1 < List.length (deref h arr))%nat ->
      (List.length h <= out < List.length h')%nat).
Proof.
  intros E. destruct (quicksort_obj_grows ltb eqb gtb key_func _ _ _ _ _ E)
    as (ext & -> & H1 & H2).
  split; [|split].
  - intros ref Href. apply deref_old, Href.
  - intros Hl. destruct (H1 Hl) as [-> ->]. rewrite app_nil_r. auto.
  - exact H2.
Qed.

(** ** More on the grouped aggregations *)

Lemma total_count_add (key : value) (a : Q) (d : groups) :
  total_count (group_add key a d) = S (total_count d).
Proof.
  unfold total_count. induction d as [|[k [n t]] d IH]; simpl; [reflexivity|].
  destruct (py_eq k key); simpl; [reflexivity|]. rewrite IH. lia.
Qed.

Lemma group_loop_total_count `{PyBuiltins} (field : string) (dflt : value)
    (receipts : list record) :
  forall d d' : groups,
    group_loop field dflt receipts d = Ok d' ->
    total_count d' = (total_count d + List.length receipts)%nat.
Proof.
  induction receipts as [|receipt rest IH]; simpl; intros d d' E.
  - injection E as <-. lia.
  - apply bind_ok in E as (a & _ & E). rewrite (IH _ _ E), total_count_add. lia.
Qed.

Lemma Permutation_list_sum (l l' : list nat) :
  Permutation l l' -> list_sum l = list_sum l'.
Proof. induction 1; simpl; lia. Qed.

(** X8. The rows of [vendor_aggregation] split the receipts: the counts
    of the rows add up to the number of receipts. *)
Theorem vendor_aggregation_counts `{PyBuiltins} (receipts : list record)
    (rows : list vendor_row) :
  vendor_aggregation receipts = Ok rows ->
  list_sum (map vr_count rows) = List.length receipts.
Proof.
  unfold vendor_aggregation. intros E. apply bind_ok in E as (d & Hd & E).
  pose proof (sorted_perm _ _ _ _ _ E) as P.
  rewrite <- (Permutation_list_sum _ _ (Permutation_map vr_count P)).
  rewrite map_map.
  pose proof (group_loop_total_count _ _ _ _ _ Hd) as Hc.
  unfold total_count in Hc. simpl in Hc. rewrite <- Hc.
  f_equal. apply map_ext. intros [k [n t]]. reflexivity.
Qed.



(** ** The monthly series *)

Lemma month_loop_skip `{PyBuiltins} (r : record) (rest : list record)
    (d : list (string * Q)) :
  text_date r -> dated r = false -> month_loop (r :: rest) d = month_loop rest d.
Proof.
  intros Hr Hd. cbn [month_loop]. unfold dated in Hd.
  destruct Hr as [E | (s & E)]; rewrite E in *; [reflexivity|].
  destruct (strptime s); [discriminate|].
  destruct (truthy (VStr s)); reflexivity.
Qed.

Lemma month_loop_dated `{PyBuiltins} (receipts : list record) :
  Forall text_date receipts ->
  forall d, month_loop receipts d = month_loop (List.filter dated receipts) d.
Proof.
  induction 1 as [|r rest Hr _ IH]; intros d; [reflexivity|].
  cbn [List.filter]. destruct (dated r) eqn:Hd.
  - cbn [month_loop].
    destruct (truthy (get r "date")); [|apply IH].
    destruct (get r "date"); try reflexivity.
    destruct (strptime s); [|apply IH].
    destruct (py_float _) as [a|[]]; try reflexivity; apply IH.
  - rewrite month_loop_skip by assumption. apply IH.
Qed.

Lemma month_add_keys (key : string) (a : option Q) (d : list (string * Q)) (k : string) :
  In k (map fst (month_add key a d)) -> k = key \/ In k (map fst d).
Proof.
  induction d as [|[k' t] d IH]; simpl.
  - intros [<-|[]]. auto.
  - destruct (String.eqb k' key); simpl; [tauto|].
    intros [<-|Hin]; [tauto|]. destruct (IH Hin); tauto.
Qed.

Lemma month_add_NoDup (key : string) (a : option Q) (d : list (string * Q)) :
  NoDup (map fst d) -> NoDup (map fst (month_add key a d)).
Proof.
  induction d as [|[k' t] d IH]; simpl; intros Hd.
  - repeat constructor. intros [].
  - inversion Hd as [|? ? Hk Hd']; subst.
    destruct (String.eqb_spec k' key); simpl; [constructor; assumption|].
    constructor; [|auto].
    intros Hin. apply month_add_keys in Hin as [->|Hin]; [congruence | contradiction].
Qed.

Lemma month_loop_NoDup `{PyBuiltins} (receipts : list record) :
  forall d d', month_loop receipts d = Ok d' ->
               NoDup (map fst d) -> NoDup (map fst d').
Proof.
  induction receipts as [|r rest IH]; intros d d' E Hd.
  - injection E as <-. exact Hd.
  - cbn [month_loop] in E.
    destruct (truthy (get r "date")); [|eauto].
    destruct (get r "date"); try discriminate.
    destruct (strptime s); [|eauto].
    destruct (py_float _) as [a|[]]; try discriminate;
      eapply IH; eauto using month_add_NoDup.
Qed.

Lemma month_rows_keys (d : list (string * Q)) (k : string) :
  In k (map row_date_sort (month_rows d)) -> In k (map fst d).
Proof.
  induction d as [|[m t] d IH]; simpl; [tauto|].
  destruct (strptime_Ym m); simpl; [intros [<-|Hin]|]; auto.
Qed.

Lemma month_rows_NoDup (d : list (string * Q)) :
  NoDup (map fst d) -> NoDup (map row_date_sort (month_rows d)).
Proof.
  induction d as [|[m t] d IH]; simpl; intros Hd; [constructor|].
  inversion Hd as [|? ? Hk Hd']; subst.
  destruct (strptime_Ym m); simpl; [|auto].
  constructor; [|auto]. intros Hin. apply Hk, month_rows_keys, Hin.
Qed.

Lemma str_lt_asym (a b : string) : str_lt a b = Ok true -> str_lt b a = Ok false.
Proof. unfold str_lt. intros H%Ok_inj. f_equal. apply string_ltb_asym, H. Qed.

Lemma str_le_trans (a b c : string) :
  str_lt b a = Ok false -> str_lt c b = Ok false -> str_lt c a = Ok false.
Proof.
  unfold str_lt. intros H1%Ok_inj H2%Ok_inj. f_equal. eapply string_le_trans; eauto.
Qed.

Lemma string_ltb_total (a b : string) :
  a <> b -> String.ltb b a = false -> String.ltb a b = true.
Proof.
  unfold String.ltb. rewrite (String.compare_antisym b a).
  destruct (String.compare a b) eqn:Hc; simpl; try congruence.
  apply String.compare_eq_iff in Hc. contradiction.
Qed.

(** X10. [time_series_aggregation] leaves out the receipts whose date
    is absent, empty or not read by [strptime]: on receipts whose dates
    are texts or absent it computes what it computes on the dated ones
    alone.  The rows it returns stand in strictly increasing order of
    their year-month key, hence one row per month. *)
Theorem time_series_rows `{PyBuiltins} (receipts : list record) :
  Forall text_date receipts ->
  time_series_aggregation receipts
  = time_series_aggregation (List.filter dated receipts)
  /\ forall rows,
       time_series_aggregation receipts = Ok rows ->
       StronglySorted
         (fun a b => String.ltb (row_date_sort a) (row_date_sort b) = true) rows.
Proof.
  intros Ht. split.
  - unfold time_series_aggregation. rewrite (month_loop_dated _ Ht). reflexivity.
  - intros rows E. unfold time_series_aggregation in E.
    apply bind_ok in E as (d & Hd & E).
    assert (Hn : NoDup (map row_date_sort rows)).
    { eapply Permutation_NoDup;
        [apply Permutation_map, (sorted_perm _ _ _ _ _ E)|].
      apply month_rows_NoDup. eapply month_loop_NoDup; [exact Hd | constructor]. }
    pose proof (sorted_ascending str_lt str_lt_asym str_le_trans _ _ _ E) as Hs.
    clear E. induction Hs as [|a l Hs IH Ha]; [constructor|].
    simpl in Hn. inversion Hn as [|? ? Hna Hn']; subst.
    constructor; [auto|].
    rewrite Forall_forall in *. intros b Hb.
    destruct (Ha b Hb) as (ka & kb & [= <-] & [= <-] & Hlt%Ok_inj).
    apply string_ltb_total; [|exact Hlt].
    intros Heq. apply Hna. rewrite Heq. apply in_map, Hb.
Qed.

(** ** Counters *)

(** The two counters of the source, [Counter] on rounded amounts and
    [tally] on values, obey the same equations; their properties are
    proved once, for any insertion [add] with these equations. *)
Section CounterFacts.
Context {T : Type}.
Variable eqb : T -> T -> bool.
Variable add : T -> list (T * nat) -> list (T * nat).
Hypothesis eqb_refl : forall a, eqb a a = true.
Hypothesis eqb_sym : forall a b, eqb a b = true -> eqb b a = true.
Hypothesis eqb_trans : forall a b c, eqb a b = true -> eqb b c = true -> eqb a c = true.
Hypothesis add_nil : forall x, add x [] = [(x, 1%nat)].
Hypothesis add_cons :
  forall x y n c,
    add x ((y, n) :: c) = if eqb y x then (y, S n) :: c else (y, n) :: add x c.







End CounterFacts.




(** ** Frequencies *)







(** ** More on the basic statistics *)






Lemma sorted_floats (data : list Q) :
  exists srt,
    sorted float_lt data (fun x => Ok x) false = Ok srt
    /\ Permutation data srt
    /\ StronglySorted Qle srt.
Proof.
  destruct (sorted_total float_lt (fun a b => ex_intro _ _ eq_refl) data
              (fun x => Ok x) (map (fun x => x) data) false
              (mapM_pure _ _ _ (fun x _ => eq_refl))) as [srt Hs].
  exists srt. split; [exact Hs|]. split; [eapply sorted_perm; eauto|].
  eapply StronglySorted_weaken;
    [|apply (sorted_ascending float_lt float_lt_asym float_le_trans _ _ _ Hs)].
  intros a b (ka & kb & [= <-] & [= <-] & Hlt%Ok_inj). apply Qltb_ge, Hlt.
Qed.

(** What [calculate_basic_stats] computes from amounts that are not
    empty. *)
Lemma calculate_basic_stats_parts (amounts : list Q) :
  amounts <> [] ->
  exists srt m,
    Permutation amounts srt /\ StronglySorted Qle srt
    /\ statistics_mode (map round2 amounts) = Ok m
    /\ calculate_basic_stats amounts
       = Ok (mk_basic_stats (round2 (Qsum amounts))
               (round2 (Qsum amounts / Qlen amounts))
               (round2 (if (List.length srt mod 2 =? 1)%nat
                        then nth (List.length srt / 2) srt 0%Q
                        else ((nth (List.length srt / 2 - 1) srt 0%Q
                               + nth (List.length srt / 2) srt 0%Q) / 2)%Q))
               (round2 m)).
Proof.
  intros Hne.
  destruct (sorted_floats amounts) as (srt & Hs & P & S).
  destruct (statistics_mode_total (map round2 amounts)) as [m Hm].
  { destruct amounts; [contradiction | discriminate]. }
  exists srt, m. repeat split; try assumption.
  assert (Hl : (List.length srt =? 0)%nat = false).
  { apply Nat.eqb_neq. rewrite <- (Permutation_length P).
    destruct amounts; [contradiction | discriminate]. }
  destruct amounts as [|a rest]; [contradiction|].
  change (calculate_basic_stats (a :: rest))
    with (let* mean_val := statistics_mean (a :: rest) in
          let* median_val := statistics_median (a :: rest) in
          let* mode_val :=
            match statistics_mode (map round2 (a :: rest)) with
            | Raise StatisticsError => Ok median_val
            | r => r
            end in
          Ok (mk_basic_stats (round2 (Qsum (a :: rest))) (round2 mean_val)
                (round2 median_val) (round2 mode_val))).
  change (statistics_mean (a :: rest)) with (Ok (Qsum (a :: rest) / Qlen (a :: rest))%Q).
  unfold statistics_median. rewrite Hs. cbn [bind]. rewrite Hl.
  destruct (List.length srt mod 2 =? 1)%nat; cbn [bind]; rewrite Hm; reflexivity.
Qed.



(** ** The query as a whole *)

(** X14. A request without filters and without a sort field returns the
    input as it is: absent, [None] and empty filters are no-ops, and
    the order of the input is kept. *)
Theorem execute_query_no_request `{PyBuiltins} (input : list record)
    (filters sort_options : record) (b : bundle) :
  no_filters filters ->
  truthy (get sort_options "field") = false ->
  execute_query input filters sort_options = Ok b ->
  data b = input /\ count b = List.length input.
Proof.
  intros (H1 & H2 & H3 & H4 & H5 & H6 & H7) Hs E.
  unfold execute_query, filter_stage, sort_stage in E.
  rewrite H1, H2, H3, H4, H5, H6, H7, Hs in E. simpl in E.
  do 5 (apply bind_ok in E as (? & _ & E)). injection E as <-. auto.
Qed.

Lemma filterM_raise {A : Type} (f : A -> result bool) (l : list A) (x : A) (e0 : exn) :
  In x l -> f x = Raise e0 -> (forall y e, f y = Raise e -> e = e0) ->
  filterM f l = Raise e0.
Proof.
  intros Hin Hx Hf. induction l as [|y ys IH]; [destruct Hin|]. simpl.
  destruct (f y) as [keep|e] eqn:Hy; simpl.
  - destruct Hin as [->|Hin]; [congruence|]. rewrite (IH Hin). reflexivity.
  - rewrite (Hf _ _ Hy). reflexivity.
Qed.

(** X15. The vendor filter raises [AttributeError] as soon as one of the
    records it is applied to has a vendor that is bound but is no text,
    [None] in the first place: the default [''] of
    [r.get('vendor', '')] stands in for an absent key only. *)
Theorem vendor_filter_on_none `{PyBuiltins} (data : list record) (filters : record)
    (r : record) (v : value) :
  truthy (get filters "keyword") = false ->
  truthy (get filters "vendor") = true ->
  In r data -> r !! "vendor" = Some v -> (forall s, v <> VStr s) ->
  filter_stage data filters = Raise AttributeError.
Proof.
  intros Hk Hv Hin Hr Hns. unfold filter_stage. rewrite Hk, Hv. cbn [bind].
  rewrite (filterM_raise _ data r AttributeError Hin); [reflexivity| |].
  - unfold vendor_match, get_default. rewrite Hr.
    destruct v; try reflexivity. destruct (Hns s eq_refl).
  - intros y e. unfold vendor_match.
    destruct (py_lower (get_default y "vendor" (VStr ""))) as [a|e1] eqn:E1; simpl.
    + destruct (py_lower (get filters "vendor")) as [w|e2] eqn:E2; simpl; [discriminate|].
      intros [= <-]. destruct (get filters "vendor"); simpl in E2; congruence.
    + intros [= <-]. destruct (get_default y "vendor" (VStr "")); simpl in E1; congruence.
Qed.


(** ** The keyword search *)




Lemma existsb_In {A : Type} (f : A -> bool) (l : list A) (x : A) :
  In x l -> f x = true -> existsb f l = true.
Proof. intros Hin Hx. apply existsb_exists. eauto. Qed.

(** X18. A searched field that is bound to [None] is searched as the
    text ['None']: a record with such a field is returned for every
    keyword that, in lower case, is a part of ["none"]. *)
Theorem keyword_search_none `{PyBuiltins} (data found : list record)
    (keyword field : string) (fields : list string) (r : record) :
  contains (lower keyword) "none" = true ->
  In field fields -> In r data -> r !! field = Some VNone ->
  keyword_search data (VStr keyword) fields = Ok found ->
  In r found.
Proof.
  intros Hk Hf Hr Hn E. unfold keyword_search in E. simpl in E.
  injection E as <-. apply filter_In. split; [exact Hr|].
  unfold keyword_match. apply (existsb_In _ _ field Hf).
  unfold get_default. rewrite Hn. exact Hk.
Qed.

(** ** The sort on several fields *)

Lemma mapM_ext {A B : Type} (f g : A -> result B) (l : list A) :
  (forall x, In x l -> f x = g x) -> mapM f l = mapM g l.
Proof.
  induction l as [|x xs IH]; simpl; intros H; [reflexivity|].
  rewrite (H x) by auto. rewrite IH by auto. reflexivity.
Qed.

(** X19. [multi_field_sort] reverses numbers only: on records that hold
    no number in the fields to sort in reverse, the request for a reverse
    order is without effect, and the result is that of the ascending
    sort on the same fields. *)
Theorem multi_field_sort_reverse_text (data : list record)
    (sort_fields : list (string * bool)) :
  Forall (no_reversed_number sort_fields) data ->
  multi_field_sort data sort_fields
  = multi_field_sort data (ascending_fields sort_fields).
Proof.
  intros Hd. unfold multi_field_sort, sorted.
  rewrite (mapM_ext _ (fun item => Ok (map (sort_component item)
                                         (ascending_fields sort_fields))) data);
    [reflexivity|].
  intros item Hin. f_equal. rewrite Forall_forall in Hd. specialize (Hd item Hin).
  unfold ascending_fields. rewrite map_map.
  apply map_ext_in. intros [field reverse] Hf. simpl.
  destruct reverse; simpl; [|reflexivity].
  destruct (get item field) eqn:Hg; try reflexivity.
  destruct (Hd field q Hf Hg).
Qed.

(** ** More on the trends *)

(** X20. [calculate_trends] never raises.  A series of fewer than two
    months is ['insufficient_data'] with a growth rate of 0 and no moving
    average; a longer series is ['increasing'], ['decreasing'] or
    ['stable'], and it is ['stable'] with a growth rate of 0 whenever the
    mean of its first half is not positive, whatever the second half
    holds. *)
Theorem calculate_trends_cases (monthly_data : list month_row) :
  let amounts := map row_amount monthly_data in
  exists r,
    calculate_trends monthly_data = Ok r
    /\ ((List.length monthly_data < 2)%nat ->
        trend r = "insufficient_data" /\ growth_rate r = 0%Q
        /\ trend_moving_average r = None)
    /\ ((2 <= List.length monthly_data)%nat ->
        (trend r = "increasing" \/ trend r = "decreasing" \/ trend r = "stable")
        /\ (exists ma, moving_average amounts 3 = Ok ma
                       /\ trend_moving_average r = Some ma)
        /\ (~ (0 < average (first_half amounts))%Q ->
            trend r = "stable" /\ (growth_rate r == 0)%Q)).
Proof.
  intros amounts. unfold calculate_trends. fold amounts.
  destruct (Nat.ltb_spec (List.length monthly_data) 2) as [Hlt|Hge].
  - eexists. split; [reflexivity|]. split; [auto | intros; lia].
  - destruct (moving_average_total amounts 3 ltac:(lia)) as (ma & Hma).
    rewrite Hma. cbn [bind]. eexists. split; [reflexivity|].
    split; [intros; lia|]. intros _. cbn [trend growth_rate trend_moving_average].
    split; [|split].
    + unfold classify.
      destruct (Qltb 5 _); [auto|]. destruct (Qltb _ (-5)); auto.
    + exists ma. auto.
    + intros Hz. unfold growth.
      destruct (Qltb 0 (average (first_half amounts))) eqn:Hp;
        [apply Qltb_lt in Hp; contradiction|].
      split; reflexivity.
Qed.

(** ** The endpoints *)

Lemma filter_stage_no_filters `{PyBuiltins} (data : list record) (filters : record) :
  no_filters filters -> filter_stage data filters = Ok data.
Proof.
  intros (H1 & H2 & H3 & H4 & H5 & H6 & H7). unfold filter_stage.
  rewrite H1, H2, H3, H4, H5, H6, H7. reflexivity.
Qed.

(** X21. The default listing fails on a table that holds a dated and an
    undated receipt: with no filter and the sort field ['date'], in
    either direction, [get_receipts] raises [TypeError] as soon as one
    row has a non-empty date and another row has the date [NULL] or
    ['']. *)
Theorem get_receipts_undated `{PyBuiltins} (receipts : list Database.Receipt)
    (r1 r2 : Database.Receipt) (s sort_direction : string) :
  In r1 receipts -> In r2 receipts ->
  Database.date r1 = Some s -> s <> "" ->
  Database.date r2 = None \/ Database.date r2 = Some "" ->
  Main.get_receipts None None None None None None None "date" sort_direction receipts
  = Raise TypeError.
Proof.
  intros H1 H2 Hs Hne Hm. unfold Main.get_receipts, execute_query.
  rewrite filter_stage_no_filters by (repeat split; reflexivity).
  cbn [bind].
  set (sort_options := <["field" := VStr "date"]> _).
  assert (Hf : get sort_options "field" = VStr "date") by reflexivity.
  assert (T1 : truthy (VStr s) = true).
  { simpl. destruct (String.eqb_spec s ""); [contradiction | reflexivity]. }
  assert (K2 : requested_key sort_options (Main.receipt_dict r2)
               = Ok (KInf (requested_reverse sort_options))).
  { unfold requested_key, sort_key, get_by. rewrite Hf.
    change (get (Main.receipt_dict r2) "date") with (Database.text (Database.date r2)).
    destruct Hm as [-> | ->]; reflexivity. }
  assert (K1 : exists k1, requested_key sort_options (Main.receipt_dict r1) = Ok k1
                          /\ kind_of k1 <> KindNumber).
  { unfold requested_key, sort_key, get_by. rewrite Hf.
    change (get (Main.receipt_dict r1) "date") with (Database.text (Database.date r1)).
    rewrite Hs. cbn [Database.text]. rewrite T1. simpl.
    destruct (strptime s); eexists; (split; [reflexivity | discriminate]). }
  destruct K1 as (k1 & K1 & Hk).
  rewrite (sort_stage_kinds_clash _ sort_options (Main.receipt_dict r1)
             (Main.receipt_dict r2) k1 _ eq_refl
             (in_map _ _ _ H1) (in_map _ _ _ H2) K1 K2 Hk).
  reflexivity.
Qed.

Lemma vendor_match_raise (wanted : value) (y : record) (e : exn) :
  vendor_match wanted y = Raise e -> e = AttributeError.
Proof.
  unfold vendor_match.
  destruct (py_lower (get_default y "vendor" (VStr ""))) as [a|e1] eqn:E1; simpl.
  - destruct (py_lower wanted) as [w|e2] eqn:E2; simpl; [discriminate|].
    intros [= <-]. destruct wanted; simpl in E2; congruence.
  - intros [= <-]. destruct (get_default y "vendor" (VStr "")); simpl in E1; congruence.
Qed.

(** X22. A request that filters by vendor, without a keyword, fails on a
    table that holds a receipt without vendor: [get_receipts] binds the
    key ['vendor'] of every dictionary, to [None] for a [NULL] column, so
    that the filter calls [lower] on [None] and raises [AttributeError],
    whatever the other parameters. *)
Theorem get_receipts_vendor_null `{PyBuiltins} (receipts : list Database.Receipt)
    (r : Database.Receipt) (keyword category date_from date_to : option string)
    (amount_min amount_max : option Q) (sort_field sort_direction wanted : string) :
  keyword = None \/ keyword = Some "" ->
  wanted <> "" ->
  In r receipts -> Database.vendor r = None ->
  Main.get_receipts keyword (Some wanted) category date_from date_to
    amount_min amount_max sort_field sort_direction receipts
  = Raise AttributeError.
Proof.
  intros Hk Hw Hin Hr. unfold Main.get_receipts, execute_query, filter_stage.
  set (filters := <["keyword" := Database.text keyword]> _).
  change (get filters "keyword") with (Database.text keyword).
  change (get filters "vendor") with (VStr wanted).
  assert (Tk : truthy (Database.text keyword) = false).
  { destruct Hk as [-> | ->]; reflexivity. }
  assert (Tw : truthy (VStr wanted) = true).
  { simpl. destruct (String.eqb_spec wanted ""); [contradiction | reflexivity]. }
  rewrite Tk, Tw. cbn [bind].
  rewrite (filterM_raise _ _ (Main.receipt_dict r) AttributeError (in_map _ _ _ Hin)).
  - reflexivity.
  - unfold vendor_match.
    change (get_default (Main.receipt_dict r) "vendor" (VStr ""))
      with (Database.text (Database.vendor r)).
    rewrite Hr. reflexivity.
  - intros y e. apply vendor_match_raise.
Qed.

Lemma paid_amounts_paid `{PyBuiltins} (receipts : list Database.Receipt) :
  Main.paid_amounts (map Main.stats_dict receipts) = Ok (paid receipts).
Proof.
  induction receipts as [|receipt rest IH]; [reflexivity|].
  cbn [map Main.paid_amounts paid].
  change (Main.getitem (Main.stats_dict receipt) "amount")
    with (Ok (or_zero (Database.number (Database.amount receipt)))).
  cbn [bind]. destruct (Database.amount receipt) as [q|]; cbn [Database.number].
  - unfold or_zero. cbn [truthy]. destruct (Qeq_bool q 0) eqn:Hq; cbn [negb truthy].
    + exact IH.
    + rewrite Hq. cbn [negb py_float bind]. rewrite IH. reflexivity.
  - exact IH.
Qed.

Lemma calculate_basic_stats_total (amounts : list Q) :
  exists st, calculate_basic_stats amounts = Ok st.
Proof.
  destruct amounts as [|a rest]; [eexists; reflexivity|].
  destruct (calculate_basic_stats_parts (a :: rest)) as (srt & m & _ & _ & _ & E);
    [discriminate | eauto].
Qed.

Lemma stats_dict_amounts `{PyBuiltins} (receipts : list Database.Receipt) :
  exists amts, mapM amount_of (map Main.stats_dict receipts) = Ok amts.
Proof.
  induction receipts as [|receipt rest [amts IH]]; [eexists; reflexivity|].
  cbn [map mapM]. rewrite IH. unfold amount_of.
  change (get_default (Main.stats_dict receipt) "amount" (VNum 0))
    with (or_zero (Database.number (Database.amount receipt))).
  destruct (Database.amount receipt) as [q|]; cbn [Database.number].
  - unfold or_zero. cbn [truthy]. destruct (Qeq_bool q 0) eqn:Hq; cbn [negb truthy].
    + eexists. reflexivity.
    + rewrite Hq. eexists. reflexivity.
  - eexists. reflexivity.
Qed.

Lemma month_loop_total `{PyBuiltins} (receipts : list record) :
  Forall text_date receipts ->
  (exists amts, mapM amount_of receipts = Ok amts) ->
  forall d, exists d', month_loop receipts d = Ok d'.
Proof.
  induction receipts as [|receipt rest IH]; intros Hd [amts Ha] d; [eexists; reflexivity|].
  inversion Hd as [|? ? Hr Hrest]; subst.
  cbn [mapM] in Ha. apply bind_ok in Ha as (a & Hq & Ha).
  apply bind_ok in Ha as (amts' & Hm & _).
  specialize (IH Hrest (ex_intro _ _ Hm)).
  cbn [month_loop]. unfold amount_of in Hq. rewrite Hq.
  destruct Hr as [Hr | [s Hr]]; rewrite Hr; cbn [truthy].
  - apply IH.
  - destruct (negb (s =? "")%string); [|apply IH].
    destruct (strptime s); apply IH.
Qed.

Lemma group_add_keys (key : value) (a : Q) (d : groups) (k : value) :
  In k (map fst (group_add key a d)) -> k = key \/ In k (map fst d).
Proof.
  induction d as [|[k' [n t]] d IH]; simpl.
  - intros [<-|[]]. auto.
  - destruct (py_eq k' key); simpl; [auto|].
    intros [<-|Hin]; [auto|]. destruct (IH Hin); auto.
Qed.

Lemma group_loop_keys `{PyBuiltins} (field : string) (dflt : value)
    (receipts : list record) :
  forall d d' : groups,
    group_loop field dflt receipts d = Ok d' ->
    forall k, In k (map fst d') ->
      In k (map fst d) \/ exists r, In r receipts /\ k = get_default r field dflt.
Proof.
  induction receipts as [|receipt rest IH]; simpl; intros d d' E k Hk.
  - injection E as <-. auto.
  - apply bind_ok in E as (a & _ & E).
    destruct (IH _ _ E k Hk) as [Hin | (r & Hr & ->)].
    + apply group_add_keys in Hin as [-> | Hin]; [right; eauto | auto].
    + right. eauto.
Qed.

Lemma py_slice_prefix {A : Type} (l : list A) (n : Z) :
  0 <= n ->
  (List.length (py_slice l 0 n) <= Z.to_nat n)%nat
  /\ forall x, In x (py_slice l 0 n) -> In x l.
Proof.
  intros Hn. unfold py_slice.
  assert (H0 : clamp_index (Z.of_nat (List.length l)) 0 = 0).
  { unfold clamp_index. simpl. destruct (Z.ltb_spec (Z.of_nat (List.length l)) 0); [lia | reflexivity]. }
  rewrite H0. simpl (skipn _ _). split.
  - etransitivity; [apply firstn_le_length|].
    unfold clamp_index.
    destruct (Z.ltb_spec n 0); [lia|]. destruct (Z.ltb_spec n 0); [lia|].
    destruct (Z.ltb_spec (Z.of_nat (List.length l)) n); lia.
  - intros x Hx. rewrite <- (firstn_skipn (Z.to_nat (clamp_index (Z.of_nat (List.length l)) n - 0)) l).
    apply in_or_app. auto.
Qed.

(** X23. [get_statistics] never raises.  It counts every row, but its
    sum, mean, median and mode are those of the amounts that are neither
    [NULL] nor 0; it reports at most five vendors; and every vendor and
    every category it reports is the column of a row ([None] for
    [NULL]), so that the names ['Unknown'] and ['Uncategorized'] of the
    aggregations appear only when a row holds them. *)
Theorem get_statistics_response `{PyBuiltins} (receipts : list Database.Receipt) :
  exists s st,
    Main.get_statistics receipts = Ok s
    /\ Main.total_receipts s = List.length receipts
    /\ calculate_basic_stats (paid receipts) = Ok st
    /\ Main.total_spend s = stats_sum st
    /\ Main.average_amount s = stats_mean st
    /\ Main.median_amount s = stats_median st
    /\ Main.mode_amount s = stats_mode st
    /\ (List.length (Main.top_vendors s) <= 5)%nat
    /\ (forall row, In row (Main.top_vendors s) ->
          exists receipt, In receipt receipts
            /\ vr_vendor row = Database.text (Database.vendor receipt))
    /\ (forall row, In row (Main.category_spending s) ->
          exists receipt, In receipt receipts
            /\ cr_category row = Database.text (Database.category receipt)).
Proof.
  unfold Main.get_statistics. rewrite paid_amounts_paid. cbn [bind].
  destruct (calculate_basic_stats_total (paid receipts)) as [st Hst].
  rewrite Hst. cbn [bind].
  destruct (stats_dict_amounts receipts) as [amts Ha].
  set (receipts_data := map Main.stats_dict receipts) in *.
  (* vendors *)
  unfold vendor_aggregation.
  destruct (group_loop_total "vendor" (VStr "Unknown") receipts_data _ Ha []) as [dv Hdv].
  rewrite Hdv. cbn [bind].
  destruct (sorted_total float_lt (fun a b => ex_intro _ _ eq_refl)
              (map vendor_row_of dv) (fun x => Ok (vr_total x))
              (map vr_total (map vendor_row_of dv)) true
              (mapM_pure _ _ _ (fun x _ => eq_refl))) as [vrows Hv].
  rewrite Hv. cbn [bind].
  (* categories *)
  unfold category_aggregation.
  destruct (group_loop_total "category" (VStr "Uncategorized") receipts_data _ Ha [])
    as [dc Hdc].
  rewrite Hdc. cbn [bind].
  destruct (sorted_total float_lt (fun a b => ex_intro _ _ eq_refl)
              (map category_row_of dc) (fun x => Ok (cr_amount x))
              (map cr_amount (map category_row_of dc)) true
              (mapM_pure _ _ _ (fun x _ => eq_refl))) as [crows Hc].
  rewrite Hc. cbn [bind].
  (* months *)
  unfold time_series_aggregation.
  destruct (month_loop_total receipts_data) with (d := @nil (string * Q)) as [dm Hdm].
  { unfold receipts_data. apply Forall_map, Forall_forall. intros r _. unfold text_date.
    change (get (Main.stats_dict r) "date") with (Database.text (Database.date r)).
    destruct (Database.date r); simpl; eauto. }
  { eauto. }
  rewrite Hdm. cbn [bind].
  destruct (sorted_total str_lt (fun a b => ex_intro _ _ eq_refl)
              (month_rows dm) (fun x => Ok (row_date_sort x))
              (map row_date_sort (month_rows dm)) false
              (mapM_pure _ _ _ (fun x _ => eq_refl))) as [mrows Hm].
  rewrite Hm. cbn [bind].
  eexists. exists st. split; [reflexivity|].
  cbn [Main.total_receipts Main.total_spend Main.average_amount Main.median_amount
       Main.mode_amount Main.top_vendors Main.category_spending].
  split; [apply length_map|].
  split; [reflexivity|]. do 4 (split; [reflexivity|]).
  destruct (py_slice_prefix vrows 5 ltac:(lia)) as [Hlen Hsub].
  split; [exact Hlen|]. split.
  - intros row Hrow. apply Hsub in Hrow.
    apply (Permutation_in _ (Permutation_sym (sorted_perm _ _ _ _ _ Hv))) in Hrow.
    apply in_map_iff in Hrow as ([k [n t]] & <- & Hg).
    destruct (group_loop_keys _ _ _ _ _ Hdv k) as [[] | (r & Hr & ->)].
    { apply in_map_iff. exists (k, (n, t)). auto. }
    apply in_map_iff in Hr as (receipt & <- & Hin).
    exists receipt. split; [exact Hin | reflexivity].
  - intros row Hrow.
    apply (Permutation_in _ (Permutation_sym (sorted_perm _ _ _ _ _ Hc))) in Hrow.
    apply in_map_iff in Hrow as ([k [n t]] & <- & Hg).
    destruct (group_loop_keys _ _ _ _ _ Hdc k) as [[] | (r & Hr & ->)].
    { apply in_map_iff. exists (k, (n, t)). auto. }
    apply in_map_iff in Hr as (receipt & <- & Hin).
    exists receipt. split; [exact Hin | reflexivity].
Qed.

(** * Closed instances of the further properties *)

Lemma range_search_numbers_witness :
  let receipt (a : Q) : record := {[ "vendor" := VStr "Shell"; "amount" := VNum a ]} in
  let unpriced : record := {[ "vendor" := VStr "Costco" ]} in
  let data := [receipt 5; unpriced; receipt 20; receipt 10]%Q in
  range_search data "amount" (number_bound (Some 5%Q)) (number_bound (Some 10%Q))
  = Ok (List.filter (number_within "amount" (Some 5%Q) (Some 10%Q)) data).
Proof.
  intros receipt unpriced data. apply range_search_numbers.
  apply Forall_cons; [right; eexists; reflexivity|].
  apply Forall_cons; [left; reflexivity|].
  apply Forall_cons; [right; eexists; reflexivity|].
  apply Forall_cons; [right; eexists; reflexivity|].
  apply Forall_nil.
Defined.

Lemma range_search_dates_witness :
  let receipt (d : string) : record := {[ "date" := VStr d ]} in
  let undated : record := {[ "vendor" := VStr "Costco" ]} in
  let data := [receipt "2024-01-05"; undated; receipt "2024-03-01"; receipt "2024-01-31"] in
  range_search data "date" (VStr "2024-01-05") (VStr "2024-01-31")
  = Ok (List.filter (date_within (Some (mkdatetime 2024 1 5 0))
                       (Some (mkdatetime 2024 1 31 0))) data).
Proof.
  intros receipt undated data. apply range_search_dates.
  - apply Forall_cons; [right; do 2 eexists; repeat split; vm_compute; reflexivity|].
    apply Forall_cons; [left; reflexivity|].
    apply Forall_cons; [right; do 2 eexists; repeat split; vm_compute; reflexivity|].
    apply Forall_cons; [right; do 2 eexists; repeat split; vm_compute; reflexivity|].
    apply Forall_nil.
  - right. do 2 eexists. split; [reflexivity|]. split; vm_compute; reflexivity.
  - right. do 2 eexists. split; [reflexivity|]. split; vm_compute; reflexivity.
Defined.

Lemma sort_stage_ordered_witness :
  let receipt (a : Q) : record := {[ "amount" := VNum a ]} in
  let filtered := [receipt 30; receipt 50; receipt 20]%Q in
  let sort_options : record := {[ "field" := VStr "amount"; "direction" := VStr "asc" ]} in
  exists out,
    sort_stage filtered sort_options = Ok out
    /\ Permutation filtered out
    /\ StronglySorted (ascending key_lt (requested_key sort_options)) out.
Proof.
  intros receipt filtered sort_options.
  assert (E : exists out, sort_stage filtered sort_options = Ok out).
  { eexists. vm_compute. reflexivity. }
  destruct E as [out E]. exists out. split; [exact E|].
  destruct (sort_stage_ordered filtered out sort_options) as (P & A & _);
    [vm_compute; reflexivity | exact E |].
  split; [exact P | apply A; vm_compute; reflexivity].
Defined.

Lemma sort_stage_one_kind_witness :
  let named : record := {[ "vendor" := VStr "Shell" ]} in
  let priced : record := {[ "vendor" := VNum 7 ]} in
  let sort_options : record := {[ "field" := VStr "vendor" ]} in
  sort_stage [named; priced] sort_options = Raise TypeError.
Proof.
  intros named priced sort_options.
  destruct (sort_stage_one_kind [named; priced] sort_options) as [_ H];
    [vm_compute; reflexivity|].
  assert (E : exists e, sort_stage [named; priced] sort_options = Raise e).
  { eexists. vm_compute. reflexivity. }
  destruct E as [e E]. rewrite E. f_equal. exact (H e E).
Defined.

Lemma sort_stage_text_and_missing_witness :
  let dated : record := {[ "vendor" := VStr "Shell"; "date" := VStr "2024-01-05" ]} in
  let undated : record := {[ "vendor" := VStr "Costco"; "date" := VNone ]} in
  let sort_options : record := {[ "field" := VStr "date"; "direction" := VStr "desc" ]} in
  sort_stage [dated; undated] sort_options = Raise TypeError.
Proof.
  intros dated undated sort_options.
  apply (sort_stage_text_and_missing [dated; undated] sort_options "date" "2024-01-05"
           dated undated).
  - reflexivity.
  - discriminate.
  - left. reflexivity.
  - right. left. reflexivity.
  - reflexivity.
  - discriminate.
  - reflexivity.
Defined.

Lemma quicksort_stable_witness :
  let arr : list (Z * string) := [(2, "a"); (1, "b"); (2, "c"); (0, "d"); (1, "e"); (2, "f")] in
  exists out,
    quicksort Z.ltb Z.eqb Z.gtb fst arr = Ok out
    /\ List.filter (fun x => Z.eqb (fst x) 2) out = [(2, "a"); (2, "c"); (2, "f")].
Proof.
  intros arr.
  assert (E : exists out, quicksort Z.ltb Z.eqb Z.gtb fst arr = Ok out).
  { eexists. vm_compute. reflexivity. }
  destruct E as [out E]. exists out. split; [exact E|].
  rewrite (quicksort_stable Z.ltb Z.eqb Z.gtb fst arr out 2 Z_key_order E).
  reflexivity.
Defined.

Lemma quicksort_result_object_witness :
  let h : store := [[3; 1; 2]; [7]] in
  exists h' out,
    quicksort_obj Z.ltb Z.eqb Z.gtb (fun x : Z => x) 3 h 0%nat = Ok (h', out)
    /\ deref h' 0 = [3; 1; 2] /\ deref h' 1 = [7]
    /\ (List.length h <= out < List.length h')%nat.
Proof.
  intros h.
  assert (E : exists h' out,
             quicksort_obj Z.ltb Z.eqb Z.gtb (fun x : Z => x) 3 h 0%nat = Ok (h', out)).
  { do 2 eexists. vm_compute. reflexivity. }
  destruct E as (h' & out & E). exists h', out. split; [exact E|].
  destruct (quicksort_result_object Z.ltb Z.eqb Z.gtb (fun x : Z => x) 3 h h' 0%nat out E)
    as (F & _ & N).
  split; [apply (F 0%nat); simpl; lia|].
  split; [apply (F 1%nat); simpl; lia|].
  apply N. simpl. lia.
Defined.

Lemma vendor_aggregation_counts_witness :
  let receipt (v : string) (a : Q) : record :=
    {[ "vendor" := VStr v; "amount" := VNum a ]} in
  let receipts := [receipt "Costco" 50; receipt "Shell" 20; receipt "Costco" 30;
                   {[ "amount" := VNum 5 ]}]%Q in
  exists rows,
    vendor_aggregation (H := sample_runtime) receipts = Ok rows
    /\ list_sum (map vr_count rows) = 4%nat.
Proof.
  intros receipt receipts.
  assert (E : exists rows, vendor_aggregation (H := sample_runtime) receipts = Ok rows).
  { eexists. vm_compute. reflexivity. }
  destruct E as [rows E]. exists rows. split; [exact E|].
  exact (vendor_aggregation_counts (H := sample_runtime) receipts rows E).
Defined.


Lemma time_series_rows_witness :
  let receipt (d : string) (a : Q) : record :=
    {[ "date" := VStr d; "amount" := VNum a ]} in
  let receipts := [receipt "2024-02-10" 30; receipt "someday" 7;
                   {[ "amount" := VNum 5 ]}; receipt "2024-01-05" 50]%Q in
  time_series_aggregation (H := sample_runtime) receipts
  = time_series_aggregation (H := sample_runtime) (List.filter dated receipts).
Proof.
  intros receipt receipts.
  apply (time_series_rows (H := sample_runtime) receipts).
  apply Forall_cons; [right; eexists; reflexivity|].
  apply Forall_cons; [right; eexists; reflexivity|].
  apply Forall_cons; [left; reflexivity|].
  apply Forall_cons; [right; eexists; reflexivity|].
  apply Forall_nil.
Defined.



Lemma execute_query_no_request_witness :
  let receipt (v : string) (a : Q) : record :=
    {[ "vendor" := VStr v; "amount" := VNum a ]} in
  let input := [receipt "Shell" 20; receipt "Costco" 50; receipt "Aldi" 30]%Q in
  let filters : record := {[ "keyword" := VNone; "vendor" := VStr "" ]} in
  exists b,
    execute_query (H := sample_runtime) input filters ∅ = Ok b
    /\ data b = input /\ count b = 3%nat.
Proof.
  intros receipt input filters.
  assert (E : exists b, execute_query (H := sample_runtime) input filters ∅ = Ok b).
  { eexists. vm_compute. reflexivity. }
  destruct E as [b E]. exists b. split; [exact E|].
  apply (execute_query_no_request (H := sample_runtime) input filters ∅ b).
  - repeat split; reflexivity.
  - reflexivity.
  - exact E.
Defined.

Lemma vendor_filter_on_none_witness :
  let named : record := {[ "vendor" := VStr "Shell" ]} in
  let unnamed : record := {[ "vendor" := VNone ]} in
  let filters : record := {[ "vendor" := VStr "she" ]} in
  filter_stage (H := sample_runtime) [named; unnamed] filters = Raise AttributeError.
Proof.
  intros named unnamed filters.
  apply (vendor_filter_on_none (H := sample_runtime) [named; unnamed] filters unnamed VNone).
  - reflexivity.
  - reflexivity.
  - right. left. reflexivity.
  - reflexivity.
  - discriminate.
Defined.


Lemma keyword_search_none_witness :
  let unnamed : record := {[ "vendor" := VNone; "category" := VStr "Food" ]} in
  let named : record := {[ "vendor" := VStr "Shell" ]} in
  exists found,
    keyword_search (H := sample_runtime) [named; unnamed] (VStr "ON")
      ["vendor"; "category"] = Ok found
    /\ In unnamed found.
Proof.
  intros unnamed named.
  assert (E : exists found,
             keyword_search (H := sample_runtime) [named; unnamed] (VStr "ON")
               ["vendor"; "category"] = Ok found).
  { eexists. vm_compute. reflexivity. }
  destruct E as [found E]. exists found. split; [exact E|].
  apply (keyword_search_none (H := sample_runtime) [named; unnamed] found "ON" "vendor"
           ["vendor"; "category"] unnamed).
  - reflexivity.
  - left. reflexivity.
  - right. left. reflexivity.
  - reflexivity.
  - exact E.
Defined.

Lemma multi_field_sort_reverse_text_witness :
  let receipt (v : string) (a : Q) : record :=
    {[ "vendor" := VStr v; "amount" := VNum a ]} in
  let data := [receipt "Shell" 20; receipt "Aldi" 50; receipt "Costco" 30]%Q in
  multi_field_sort data [("vendor", true); ("amount", false)]
  = multi_field_sort data [("vendor", false); ("amount", false)].
Proof.
  intros receipt data.
  apply (multi_field_sort_reverse_text data [("vendor", true); ("amount", false)]).
  apply Forall_cons; [intros field q [[= <-] | [[=] | []]]; discriminate|].
  apply Forall_cons; [intros field q [[= <-] | [[=] | []]]; discriminate|].
  apply Forall_cons; [intros field q [[= <-] | [[=] | []]]; discriminate|].
  apply Forall_nil.
Defined.

Lemma get_receipts_undated_witness :
  let row (i : Z) (d : option string) : Database.Receipt :=
    Database.mk_Receipt i "receipt.jpg" (Some "Shell") d (Some 20%Q) (Some "Fuel") None
      None (Some "jpg") (Some 1024) (Some "processed") None (Some 0%Q) in
  Main.get_receipts (H := sample_runtime) None None None None None None None
    "date" "desc" [row 1 (Some "2024-01-05"); row 2 None]
  = Raise TypeError.
Proof.
  intros row.
  apply (get_receipts_undated (H := sample_runtime) _ (row 1 (Some "2024-01-05"))
           (row 2 None) "2024-01-05" "desc").
  - left. reflexivity.
  - right. left. reflexivity.
  - reflexivity.
  - discriminate.
  - left. reflexivity.
Defined.

Lemma get_receipts_vendor_null_witness :
  let row (i : Z) (v : option string) : Database.Receipt :=
    Database.mk_Receipt i "receipt.jpg" v (Some "2024-01-05") (Some 20%Q) (Some "Fuel") None
      None (Some "jpg") (Some 1024) (Some "processed") None (Some 0%Q) in
  Main.get_receipts (H := sample_runtime) None (Some "shell") None None None None None
    "amount" "desc" [row 1 (Some "Shell"); row 2 None]
  = Raise AttributeError.
Proof.
  intros row.
  apply (get_receipts_vendor_null (H := sample_runtime) _ (row 2 None)).
  - left. reflexivity.
  - discriminate.
  - right. left. reflexivity.
  - reflexivity.
Defined.
